(** * PumpsEnergyAnalysisv2: the engineering core of [apppumpsv2.py]

    A shallow embedding of the four calculation functions of the script
    ([calcular_perda_carga], [calcular_analise_energetica],
    [gerar_sugestoes], [gerar_grafico_diametro_custo]) and of the fluid
    table [FLUIDOS].

    Numbers.  A Python float is read as a real number: arithmetic is exact,
    there is no rounding and no overflow.  The special values that the code
    builds itself ([float('inf')]) and the ones they produce further down
    ([-inf], [nan]) are kept as separate constructors of [pyfloat], with the
    IEEE rules for them.  [math.pi] is [PI], [x ** 0.9] is [Rpower x 0.9] and
    [math.log10 x] is [ln x / ln 10].

    Errors.  Every operation that raises in Python returns in [result]: a
    float division whose divisor is zero raises [ZeroDivisionError], a
    subscript with a missing key raises [KeyError], [math.log10] of a
    non-positive number raises [ValueError], a call whose keyword arguments
    do not fit the signature raises [TypeError], and so does a text used as
    a number. *)

From Stdlib Require Import Reals Lra Psatz String List Bool Arith Lia.
Import ListNotations.
Open Scope R_scope.

(** ** Python values and exceptions *)

Inductive exn : Type :=
| KeyError
| ZeroDivisionError
| ValueError
| TypeError.

Inductive result (A : Type) : Type :=
| Ok (a : A)
| Raise (e : exn).

Arguments Ok {A} a.
Arguments Raise {A} e.

Definition bind {A B : Type} (m : result A) (k : A -> result B) : result B :=
  match m with
  | Ok a => k a
  | Raise e => Raise e
  end.

Notation "x <- m ;; k" := (bind m (fun x => k))
  (at level 61, m at next level, right associativity).

(** The statements of a [for] loop that appends one value per element: the
    first exception leaves the loop. *)
Fixpoint mapM {A B : Type} (f : A -> result B) (l : list A) : result (list B) :=
  match l with
  | [] => Ok []
  | a :: l' => b <- f a ;; bs <- mapM f l' ;; Ok (b :: bs)
  end.

Definition returns {A : Type} (m : result A) : Prop := exists a, m = Ok a.

(** A float: a real number, or one of the three special values. *)
Inductive pyfloat : Type :=
| Fin (x : R)
| PInf
| NInf
| NaN.

Definition inf : pyfloat := PInf.

(** The sign of a real as a special value: what [inf * x] is. *)
Definition signed_inf (x : R) : pyfloat :=
  if Rlt_dec 0 x then PInf else if Rlt_dec x 0 then NInf else NaN.

Definition fneg (a : pyfloat) : pyfloat :=
  match a with
  | Fin x => Fin (- x)
  | PInf => NInf
  | NInf => PInf
  | NaN => NaN
  end.

Definition fadd (a b : pyfloat) : pyfloat :=
  match a, b with
  | Fin x, Fin y => Fin (x + y)
  | NaN, _ | _, NaN => NaN
  | PInf, NInf | NInf, PInf => NaN
  | PInf, _ | _, PInf => PInf
  | NInf, _ | _, NInf => NInf
  end.

Definition fmul (a b : pyfloat) : pyfloat :=
  match a, b with
  | Fin x, Fin y => Fin (x * y)
  | NaN, _ | _, NaN => NaN
  | PInf, Fin y | Fin y, PInf => signed_inf y
  | NInf, Fin y | Fin y, NInf => fneg (signed_inf y)
  | PInf, PInf | NInf, NInf => PInf
  | PInf, NInf | NInf, PInf => NInf
  end.

(** [a / b] on floats: Python tests the divisor first. *)
Definition fdiv (a b : pyfloat) : result pyfloat :=
  match b with
  | Fin y =>
      if Req_dec_T y 0 then Raise ZeroDivisionError
      else Ok (match a with
               | Fin x => Fin (x / y)
               | PInf => signed_inf y
               | NInf => fneg (signed_inf y)
               | NaN => NaN
               end)
  | PInf | NInf =>
      Ok (match a with
          | Fin _ => Fin 0
          | _ => NaN
          end)
  | NaN => Ok NaN
  end.

(** [a > b] and [a < b]: false as soon as one side is [nan]. *)
Definition fgtb (a b : pyfloat) : bool :=
  match a, b with
  | Fin x, Fin y => if Rgt_dec x y then true else false
  | PInf, Fin _ | PInf, NInf | Fin _, NInf => true
  | _, _ => false
  end.

Definition fltb (a b : pyfloat) : bool := fgtb b a.

(** Division of two finite numbers, as the code writes it with a divisor
    that is not a literal. *)
Definition py_div (x y : R) : result R :=
  if Req_dec_T y 0 then Raise ZeroDivisionError else Ok (x / y).

(** [math.log10]. *)
Definition log10 (x : R) : result R :=
  if Rgt_dec x 0 then Ok (ln x / ln 10) else Raise ValueError.

(** [max(a, b)] of the builtins: the first argument unless the second is
    greater. *)
Definition py_max (a b : R) : R := if Rgt_dec b a then b else a.

(** ** The fluid table *)

Record propriedades : Type := mk_propriedades { rho : R; nu : R }.

Definition agua : string := "Água a 20°C".
Definition etanol : string := "Etanol a 20°C".
Definition glicerina : string := "Glicerina a 20°C".
Definition oleo_leve : string := "Óleo Leve (genérico)".

Definition FLUIDOS : list (string * propriedades) :=
  [ (agua, mk_propriedades 998.2 1.004e-6);
    (etanol, mk_propriedades 789.0 1.51e-6);
    (glicerina, mk_propriedades 1261.0 1.49e-3);
    (oleo_leve, mk_propriedades 880.0 1.5e-5) ].

Fixpoint lookup {V : Type} (k : string) (d : list (string * V)) : option V :=
  match d with
  | [] => None
  | (k', v) :: d' => if String.eqb k k' then Some v else lookup k d'
  end.

(** [d[k]]. *)
Definition getitem {V : Type} (d : list (string * V)) (k : string) : result V :=
  match lookup k d with
  | Some v => Ok v
  | None => Raise KeyError
  end.

Definition keys {V : Type} (d : list (string * V)) : list string := map fst d.

Definition mem (k : string) (l : list string) : bool := existsb (String.eqb k) l.

(** ** [calcular_perda_carga] *)

Record perdas : Type := mk_perdas {
  principal : pyfloat;
  localizada : pyfloat;
  velocidade : pyfloat
}.

(** The friction factor (lines 44 to 51 of the function, taken out of its
    body under a name), for a Reynolds number and a roughness and diameter
    in metres. *)
Definition fator_de_atrito (reynolds rugosidade_m diametro_m : R) : result R :=
  if Rgt_dec reynolds 4000 then
    a <- py_div rugosidade_m (3.7 * diametro_m) ;;
    b <- py_div 5.74 (Rpower reynolds 0.9) ;;
    let termo_log := a + b in
    if Rgt_dec termo_log 0 then
      lg <- log10 termo_log ;;
      py_div 0.25 (lg ^ 2)
    else Ok 0
  else if Rgt_dec reynolds 0 then py_div 64 reynolds
  else Ok 0.

Definition calcular_perda_carga
    (vazao_m3h diametro_mm comprimento_m rugosidade_mm k_total : R)
    (fluido_selecionado : string) : result perdas :=
  if Rle_dec diametro_mm 0 then
    Ok (mk_perdas inf inf inf)
  else
    let vazao_m3s := vazao_m3h / 3600 in
    let diametro_m := diametro_mm / 1000 in
    let rugosidade_m := rugosidade_mm / 1000 in
    props <- getitem FLUIDOS fluido_selecionado ;;
    let nu := nu props in
    let area := (PI * diametro_m ^ 2) / 4 in
    velocidade <- py_div vazao_m3s area ;;
    reynolds <- (if Rgt_dec nu 0 then py_div (velocidade * diametro_m) nu
                 else Ok 0) ;;
    fator_atrito <- fator_de_atrito reynolds rugosidade_m diametro_m ;;
    razao <- py_div comprimento_m diametro_m ;;
    let perda_carga_principal :=
      fator_atrito * razao * (velocidade ^ 2 / (2 * 9.81)) in
    let perda_carga_localizada := k_total * (velocidade ^ 2 / (2 * 9.81)) in
    Ok (mk_perdas (Fin perda_carga_principal)
                  (Fin perda_carga_localizada)
                  (Fin velocidade)).

(** ** [calcular_analise_energetica] *)

Record energia : Type := mk_energia {
  potencia_eletrica_kW : pyfloat;
  consumo_mensal_kWh : pyfloat;
  custo_mensal : pyfloat;
  custo_anual : pyfloat
}.

Definition calcular_analise_energetica
    (vazao_m3h : R) (h_man : pyfloat)
    (eficiencia_bomba eficiencia_motor horas_dia custo_kwh : R)
    (fluido_selecionado : string) : result energia :=
  props <- getitem FLUIDOS fluido_selecionado ;;
  let rho := rho props in
  let g := 9.81 in
  let vazao_m3s := vazao_m3h / 3600 in
  let potencia_hidraulica_W := fmul (Fin (vazao_m3s * rho * g)) h_man in
  potencia_eixo_W <-
    (if Rgt_dec eficiencia_bomba 0
     then fdiv potencia_hidraulica_W (Fin eficiencia_bomba)
     else Ok (Fin 0)) ;;
  potencia_eletrica_W <-
    (if Rgt_dec eficiencia_motor 0
     then fdiv potencia_eixo_W (Fin eficiencia_motor)
     else Ok (Fin 0)) ;;
  potencia_eletrica_kW <- fdiv potencia_eletrica_W (Fin 1000) ;;
  let consumo_diario_kWh := fmul potencia_eletrica_kW (Fin horas_dia) in
  let custo_anual := fmul (fmul consumo_diario_kWh (Fin 365)) (Fin custo_kwh) in
  Ok (mk_energia potencia_eletrica_kW
                 (fmul consumo_diario_kWh (Fin 30))
                 (fmul (fmul consumo_diario_kWh (Fin 30)) (Fin custo_kwh))
                 custo_anual).

(** ** [gerar_sugestoes] *)

(** The six messages.  The two velocity messages carry the velocity that the
    source formats into the text. *)
Inductive sugestao : Type :=
| VelocidadeAlta (v : pyfloat)
| VelocidadeBaixa (v : pyfloat)
| BombaIneficiente
| MotorIneficiente
| InversorDeFrequencia
| ManutencaoPreventiva.

Definition gerar_sugestoes
    (eficiencia_bomba eficiencia_motor : R) (custo_anual velocidade : pyfloat)
    : list sugestao :=
  let sugestoes := [] in
  let sugestoes :=
    if fgtb velocidade (Fin 3.0) then sugestoes ++ [VelocidadeAlta velocidade]
    else if fltb velocidade (Fin 0.5) then sugestoes ++ [VelocidadeBaixa velocidade]
    else sugestoes in
  let sugestoes :=
    if Rlt_dec eficiencia_bomba 0.6 then sugestoes ++ [BombaIneficiente]
    else sugestoes in
  let sugestoes :=
    if Rlt_dec eficiencia_motor 0.85 then sugestoes ++ [MotorIneficiente]
    else sugestoes in
  let sugestoes :=
    if fgtb custo_anual (Fin 5000) then sugestoes ++ [InversorDeFrequencia]
    else sugestoes in
  sugestoes ++ [ManutencaoPreventiva].

Section Texto.

(** The format [:.2f] of a float. *)
Variable formato_2f : pyfloat -> string.

Definition texto (s : sugestao) : string :=
  match s with
  | VelocidadeAlta v =>
      "ALERTA: A velocidade do fluido (" ++ formato_2f v ++
      " m/s) é alta, o que causa perdas de carga elevadas e risco de erosão. Considere aumentar o diâmetro da tubulação."
  | VelocidadeBaixa v =>
      "ATENÇÃO: A velocidade do fluido (" ++ formato_2f v ++
      " m/s) é baixa, o que pode levar à sedimentação de sólidos na tubulação (se aplicável)."
  | BombaIneficiente =>
      "Eficiência da bomba abaixo de 60%. Considere a substituição por um modelo mais moderno e eficiente."
  | MotorIneficiente =>
      "Eficiência do motor abaixo de 85%. Motores de alto rendimento (IR3+) podem gerar grande economia."
  | InversorDeFrequencia =>
      "Se a vazão for variável, um inversor de frequência pode reduzir drasticamente o consumo de energia."
  | ManutencaoPreventiva =>
      "Realize manutenções preventivas, verifique vazamentos e o estado dos rotores e selos da bomba."
  end%string.

Definition gerar_sugestoes_texto
    (eficiencia_bomba eficiencia_motor : R) (custo_anual velocidade : pyfloat)
    : list string :=
  map texto
    (gerar_sugestoes eficiencia_bomba eficiencia_motor custo_anual velocidade).

End Texto.

(** ** [gerar_grafico_diametro_custo] *)

(** [numpy.linspace(start, stop, num)] for [num >= 2]: [num] samples
    [i * step + start] with [step = (stop - start) / (num - 1)], the last
    one set to [stop]. *)
Definition linspace (start stop : R) (num : nat) : list R :=
  let div := (num - 1)%nat in
  let step := (stop - start) / INR div in
  map (fun i => if Nat.eqb i div then stop else INR i * step + start)
      (seq 0 num).

(** The value of a keyword argument: a number or a text. *)
Inductive valor : Type :=
| VNum (x : R)
| VStr (s : string).

(** [**kwargs]: a dict from parameter names to values. *)
Definition kwargs : Type := list (string * valor).

(** The binding of a call [f(n1=.., .., **kw)] to the parameters [params]
    of [f], none of which has a default: the call raises [TypeError] when a
    key of [kw] repeats one of the names [dados] given in the call, when a
    key of [kw] is not a parameter, and when a parameter gets no value.  It
    returns the values of the parameters that [kw] supplies, in the order of
    the signature. *)
Definition vincular (params dados : list string) (kw : kwargs)
    : result (list valor) :=
  if existsb (fun k => mem k dados) (keys kw) then Raise TypeError
  else if negb (forallb (fun k => mem k params) (keys kw)) then Raise TypeError
  else
    mapM (fun p => match lookup p kw with
                   | Some v => Ok v
                   | None => Raise TypeError
                   end)
         (filter (fun p => negb (mem p dados)) params).

Definition parametros_perda_carga : list string :=
  ["vazao_m3h"; "diametro_mm"; "comprimento_m"; "rugosidade_mm"; "k_total";
   "fluido_selecionado"]%string.

Definition parametros_analise_energetica : list string :=
  ["vazao_m3h"; "h_man"; "eficiencia_bomba"; "eficiencia_motor"; "horas_dia";
   "custo_kwh"; "fluido_selecionado"]%string.

(** Python does not check the kind of a value at the call: a value of the
    wrong kind is found where the body uses it.  A text used as a number (an
    operand of [/], of [*] with a float, or of [>]) raises [TypeError]
    there; a number used as the key of [FLUIDOS] is the key of no entry. *)
Definition numero (v : valor) : result R :=
  match v with
  | VNum x => Ok x
  | VStr _ => Raise TypeError
  end.

Definition getitem_valor {V : Type} (d : list (string * V)) (v : valor)
    : result V :=
  match v with
  | VStr k => getitem d k
  | VNum _ => Raise KeyError
  end.

(** The body of [calcular_perda_carga] on the values of a dict, each one
    tested for its kind at the line that first uses it: the flow at line 29,
    the roughness at line 31, the fluid at line 34, the length at line 54
    and K at line 57.  The diameter is the float of the loop. *)
Definition calcular_perda_carga_valores
    (vazao_m3h : valor) (diametro_mm : R)
    (comprimento_m rugosidade_mm k_total fluido_selecionado : valor)
    : result perdas :=
  if Rle_dec diametro_mm 0 then
    Ok (mk_perdas inf inf inf)
  else
    vazao_m3h <- numero vazao_m3h ;;
    let vazao_m3s := vazao_m3h / 3600 in
    let diametro_m := diametro_mm / 1000 in
    rugosidade_mm <- numero rugosidade_mm ;;
    let rugosidade_m := rugosidade_mm / 1000 in
    props <- getitem_valor FLUIDOS fluido_selecionado ;;
    let nu := nu props in
    let area := (PI * diametro_m ^ 2) / 4 in
    velocidade <- py_div vazao_m3s area ;;
    reynolds <- (if Rgt_dec nu 0 then py_div (velocidade * diametro_m) nu
                 else Ok 0) ;;
    fator_atrito <- fator_de_atrito reynolds rugosidade_m diametro_m ;;
    comprimento_m <- numero comprimento_m ;;
    razao <- py_div comprimento_m diametro_m ;;
    let perda_carga_principal :=
      fator_atrito * razao * (velocidade ^ 2 / (2 * 9.81)) in
    k_total <- numero k_total ;;
    let perda_carga_localizada := k_total * (velocidade ^ 2 / (2 * 9.81)) in
    Ok (mk_perdas (Fin perda_carga_principal)
                  (Fin perda_carga_localizada)
                  (Fin velocidade)).

(** The body of [calcular_analise_energetica] on the values of a dict: the
    fluid is used at line 67, the flow at line 69, the two efficiencies at
    lines 72 and 73, the hours at line 77 and the tariff at line 78. *)
Definition calcular_analise_energetica_valores
    (vazao_m3h : valor) (h_man : pyfloat)
    (eficiencia_bomba eficiencia_motor horas_dia custo_kwh
     fluido_selecionado : valor) : result energia :=
  props <- getitem_valor FLUIDOS fluido_selecionado ;;
  let rho := rho props in
  let g := 9.81 in
  vazao_m3h <- numero vazao_m3h ;;
  let vazao_m3s := vazao_m3h / 3600 in
  let potencia_hidraulica_W := fmul (Fin (vazao_m3s * rho * g)) h_man in
  eficiencia_bomba <- numero eficiencia_bomba ;;
  potencia_eixo_W <-
    (if Rgt_dec eficiencia_bomba 0
     then fdiv potencia_hidraulica_W (Fin eficiencia_bomba)
     else Ok (Fin 0)) ;;
  eficiencia_motor <- numero eficiencia_motor ;;
  potencia_eletrica_W <-
    (if Rgt_dec eficiencia_motor 0
     then fdiv potencia_eixo_W (Fin eficiencia_motor)
     else Ok (Fin 0)) ;;
  potencia_eletrica_kW <- fdiv potencia_eletrica_W (Fin 1000) ;;
  horas_dia <- numero horas_dia ;;
  let consumo_diario_kWh := fmul potencia_eletrica_kW (Fin horas_dia) in
  custo_kwh <- numero custo_kwh ;;
  let custo_anual := fmul (fmul consumo_diario_kWh (Fin 365)) (Fin custo_kwh) in
  Ok (mk_energia potencia_eletrica_kW
                 (fmul consumo_diario_kWh (Fin 30))
                 (fmul (fmul consumo_diario_kWh (Fin 30)) (Fin custo_kwh))
                 custo_anual).

(** [calcular_perda_carga(diametro_mm=d_mm, **kwargs)]: the binding, then
    the body.  A binding that succeeds gives one value for each of the five
    other parameters, so the last case of the match is never taken. *)
Definition chamar_perda_carga (d_mm : R) (kw : kwargs) : result perdas :=
  args <- vincular parametros_perda_carga ["diametro_mm"%string] kw ;;
  match args with
  | [vazao; comprimento; rugosidade; k; fluido] =>
      calcular_perda_carga_valores vazao d_mm comprimento rugosidade k fluido
  | _ => Raise TypeError
  end.

(** [calcular_analise_energetica(h_man=h_man_calculado, **kwargs)]. *)
Definition chamar_analise_energetica (h_man : pyfloat) (kw : kwargs)
    : result energia :=
  args <- vincular parametros_analise_energetica ["h_man"%string] kw ;;
  match args with
  | [vazao; ef_bomba; ef_motor; horas; custo; fluido] =>
      calcular_analise_energetica_valores vazao h_man ef_bomba ef_motor horas
                                          custo fluido
  | _ => Raise TypeError
  end.

(** The sample diameters of line 149. *)
Definition diametros_mm (diametro_base_mm : R) : list R :=
  linspace (py_max 25 (diametro_base_mm * 0.5)) (diametro_base_mm * 2) 20.

(** The function returns a table of two columns; it is read as the list of
    its rows. *)
Definition gerar_grafico_diametro_custo
    (diametro_base_mm h_geometrica : R) (kw : kwargs)
    : result (list (R * pyfloat)) :=
  let diametros_mm := diametros_mm diametro_base_mm in
  custos_anuais <-
    mapM (fun d_mm =>
            perdas <- chamar_perda_carga d_mm kw ;;
            let h_man_calculado :=
              fadd (fadd (Fin h_geometrica) (principal perdas))
                   (localizada perdas) in
            resultado_energia <- chamar_analise_energetica h_man_calculado kw ;;
            Ok (custo_anual resultado_energia))
         diametros_mm ;;
  Ok (combine diametros_mm custos_anuais).

(** The keyword arguments that the script builds for the chart (lines 240 to
    252): the two dicts of parameters merged into one. *)
Definition params_gerais
    (vazao comp_tub rug_tub k_total_acessorios rend_bomba rend_motor
     horas_por_dia tarifa_energia : R) (fluido_selecionado : string) : kwargs :=
  [ ("vazao_m3h", VNum vazao); ("comprimento_m", VNum comp_tub);
    ("rugosidade_mm", VNum rug_tub); ("k_total", VNum k_total_acessorios);
    ("fluido_selecionado", VStr fluido_selecionado);
    ("eficiencia_bomba", VNum (rend_bomba / 100));
    ("eficiencia_motor", VNum (rend_motor / 100));
    ("horas_dia", VNum horas_por_dia); ("custo_kwh", VNum tarifa_energia)
  ]%string.

(** ** The chain of the two calculations

    What the script computes for the pipe that the user describes (lines 216,
    217 and 227) and what the body of the loop of the chart computes for each
    sample diameter (lines 154 to 159), with every argument given to its own
    parameter: the losses, the manometric head and the energy analysis.  The
    two efficiencies are fractions (the script divides its percentages by
    100 at the call). *)
Definition analise_da_tubulacao
    (vazao_m3h diametro_mm comprimento_m rugosidade_mm k_total : R)
    (fluido_selecionado : string)
    (h_geometrica eficiencia_bomba eficiencia_motor horas_dia custo_kwh : R)
    : result (perdas * energia) :=
  perdas <- calcular_perda_carga vazao_m3h diametro_mm comprimento_m
                                 rugosidade_mm k_total fluido_selecionado ;;
  let h_man :=
    fadd (fadd (Fin h_geometrica) (principal perdas)) (localizada perdas) in
  resultados <- calcular_analise_energetica vazao_m3h h_man eficiencia_bomba
                  eficiencia_motor horas_dia custo_kwh fluido_selecionado ;;
  Ok (perdas, resultados).

Definition custo_anual_do_diametro
    (vazao_m3h comprimento_m rugosidade_mm k_total : R)
    (fluido_selecionado : string)
    (h_geometrica eficiencia_bomba eficiencia_motor horas_dia custo_kwh : R)
    (diametro_mm : R) : result pyfloat :=
  r <- analise_da_tubulacao vazao_m3h diametro_mm comprimento_m rugosidade_mm
         k_total fluido_selecionado h_geometrica eficiencia_bomba
         eficiencia_motor horas_dia custo_kwh ;;
  Ok (custo_anual (snd r)).

(** ** Quantities that the statements name *)

(** The velocity, the Reynolds number and the argument of the logarithm that
    [calcular_perda_carga] computes on its way, as functions of its
    arguments. *)
Definition velocidade_de (vazao_m3h diametro_mm : R) : R :=
  (vazao_m3h / 3600) / ((PI * (diametro_mm / 1000) ^ 2) / 4).

Definition reynolds_de (vazao_m3h diametro_mm nu : R) : R :=
  (velocidade_de vazao_m3h diametro_mm * (diametro_mm / 1000)) / nu.

Definition termo_log_de (vazao_m3h diametro_mm rugosidade_mm nu : R) : R :=
  (rugosidade_mm / 1000) / (3.7 * (diametro_mm / 1000))
  + 5.74 / Rpower (reynolds_de vazao_m3h diametro_mm nu) 0.9.

(** The result of [calcular_perda_carga] for a friction factor [f]. *)
Definition perdas_com_fator
    (f vazao_m3h diametro_mm comprimento_m k_total : R) : perdas :=
  let v := velocidade_de vazao_m3h diametro_mm in
  mk_perdas (Fin (f * (comprimento_m / (diametro_mm / 1000))
                  * (v ^ 2 / (2 * 9.81))))
            (Fin (k_total * (v ^ 2 / (2 * 9.81))))
            (Fin v).

(** The formula of Swamee and Jain as the specification writes it,
    [0.25 / (log10 termo_log)²], evaluated the way Python evaluates it. *)
Definition swamee_jain (termo_log : R) : result R :=
  lg <- log10 termo_log ;; py_div 0.25 (lg ^ 2).

(** The selection of the friction factor in the words of the specification:
    three regimes, the turbulent one always by the formula. *)
Definition fator_da_especificacao (reynolds termo_log f : R) : Prop :=
  (reynolds > 4000 -> swamee_jain termo_log = Ok f) /\
  (0 < reynolds <= 4000 -> f = 64 / reynolds) /\
  (reynolds = 0 -> f = 0).

(** The rule of the friction factor as the specification words it, at
    one input: the function returns the losses of a factor that the
    three-regime rule selects. *)
Definition perda_carga_da_especificacao
    (vazao_m3h diametro_mm comprimento_m rugosidade_mm k_total : R)
    (fluido : string) (nu : R) : Prop :=
  exists f,
    fator_da_especificacao (reynolds_de vazao_m3h diametro_mm nu)
      (termo_log_de vazao_m3h diametro_mm rugosidade_mm nu) f /\
    calcular_perda_carga vazao_m3h diametro_mm comprimento_m rugosidade_mm
                         k_total fluido
    = Ok (perdas_com_fator f vazao_m3h diametro_mm comprimento_m k_total).

(** The roughness, in mm, at which the argument of the logarithm is exactly
    1 for 50 m³/h of water in a pipe of 100 mm (about 369.96 mm). *)
Definition rugosidade_critica : R :=
  1000 * (3.7 * (100 / 1000))
  * (1 - 5.74 / Rpower (reynolds_de 50 100 1.004e-6) 0.9).

(** ** The script

    The statements of the script between the widgets and the report (lines
    184 to 284), as a function of the values that the widgets return.  What
    the script shows on the page is left out; the function returns what it
    has computed when it reaches the call of [criar_relatorio_pdf], and an
    exception ends the run where it is raised. *)

Inductive tipo_calculo : Type :=
| InformarManualmente
| CalcularPelaTubulacao.

(** The values of the widgets.  The five fields of the pipe exist only under
    [CalcularPelaTubulacao]; the two efficiencies are the integer
    percentages of the sliders. *)
Record entradas : Type := mk_entradas {
  fluido_selecionado : string;
  vazao : R;
  tipo_calculo_h : tipo_calculo;
  h_man_informada : R;
  h_geometrica : R;
  comp_tub : R;
  diam_tub : R;
  rug_tub : R;
  k_total_acessorios : R;
  rend_bomba : Z;
  rend_motor : Z;
  horas_por_dia : R;
  tarifa_energia : R
}.

(** The limits that the widgets enforce ([min_value], [max_value], the
    options of the select box). *)
Definition entradas_validas (e : entradas) : Prop :=
  In (fluido_selecionado e) (keys FLUIDOS) /\
  0.1 <= vazao e /\
  1.0 <= h_man_informada e /\
  0.0 <= h_geometrica e /\
  1.0 <= comp_tub e /\
  1.0 <= diam_tub e /\
  0.001 <= rug_tub e /\
  0.0 <= k_total_acessorios e /\
  (10 <= rend_bomba e <= 100)%Z /\
  (50 <= rend_motor e <= 100)%Z /\
  1.0 <= horas_por_dia e <= 24.0 /\
  0.10 <= tarifa_energia e <= 2.00.

(** What the script holds when it builds the report: the head, the velocity
    ([None] when it was not computed), the energy analysis, the data of the
    chart (when there is one) and the suggestions given to the report. *)
Record estado_final : Type := mk_estado_final {
  h_man_total : pyfloat;
  velocidade_fluido : option pyfloat;
  resultados : energia;
  chart_data : option (list (R * pyfloat));
  sugestoes_do_relatorio : list sugestao
}.

Definition script (e : entradas) : result estado_final :=
  let ef_bomba := IZR (rend_bomba e) / 100 in
  let ef_motor := IZR (rend_motor e) / 100 in
  match tipo_calculo_h e with
  | InformarManualmente =>
      let h_man_total := Fin (h_man_informada e) in
      resultados <-
        calcular_analise_energetica (vazao e) h_man_total ef_bomba ef_motor
          (horas_por_dia e) (tarifa_energia e) (fluido_selecionado e) ;;
      Ok (mk_estado_final h_man_total None resultados None [])
  | CalcularPelaTubulacao =>
      perdas_dict <-
        calcular_perda_carga (vazao e) (diam_tub e) (comp_tub e) (rug_tub e)
          (k_total_acessorios e) (fluido_selecionado e) ;;
      let h_man_total :=
        fadd (fadd (Fin (h_geometrica e)) (principal perdas_dict))
             (localizada perdas_dict) in
      let velocidade_fluido := velocidade perdas_dict in
      resultados <-
        calcular_analise_energetica (vazao e) h_man_total ef_bomba ef_motor
          (horas_por_dia e) (tarifa_energia e) (fluido_selecionado e) ;;
      chart_data <-
        gerar_grafico_diametro_custo (diam_tub e) (h_geometrica e)
          (params_gerais (vazao e) (comp_tub e) (rug_tub e)
             (k_total_acessorios e) (IZR (rend_bomba e)) (IZR (rend_motor e))
             (horas_por_dia e) (tarifa_energia e) (fluido_selecionado e)) ;;
      let sugestoes :=
        gerar_sugestoes ef_bomba ef_motor (custo_anual resultados)
                        velocidade_fluido in
      Ok (mk_estado_final h_man_total (Some velocidade_fluido) resultados
            (Some chart_data) sugestoes)
  end.

(** * Properties *)

(** The tests of the code are decisions on the reals: [decidir] takes the
    branch that the hypotheses select and closes the other one. *)
Ltac decidir :=
  repeat match goal with
         | |- context [Rgt_dec ?a ?b] =>
             destruct (Rgt_dec a b); try (exfalso; lra)
         | |- context [Rlt_dec ?a ?b] =>
             destruct (Rlt_dec a b); try (exfalso; lra)
         | |- context [Rle_dec ?a ?b] =>
             destruct (Rle_dec a b); try (exfalso; lra)
         | |- context [Req_dec_T ?a ?b] =>
             destruct (Req_dec_T a b); try (exfalso; lra)
         end.

(** ** Order and division on the reals *)

Lemma div_lt_l (a b c : R) : 0 < c -> a < b * c -> a / c < b.
Proof.
  intros Hc H. apply (Rmult_lt_reg_r c); [exact Hc |].
  unfold Rdiv. rewrite Rmult_assoc, Rinv_l by lra. lra.
Qed.

Lemma div_lt_r (a b c : R) : 0 < c -> a * c < b -> a < b / c.
Proof.
  intros Hc H. apply (Rmult_lt_reg_r c); [exact Hc |].
  unfold Rdiv. rewrite Rmult_assoc, Rinv_l by lra. lra.
Qed.

Lemma div_le_l (a b c : R) : 0 < c -> a <= b * c -> a / c <= b.
Proof.
  intros Hc H. apply (Rmult_le_reg_r c); [exact Hc |].
  unfold Rdiv. rewrite Rmult_assoc, Rinv_l by lra. lra.
Qed.

Lemma div_le_r (a b c : R) : 0 < c -> a * c <= b -> a <= b / c.
Proof.
  intros Hc H. apply (Rmult_le_reg_r c); [exact Hc |].
  unfold Rdiv. rewrite Rmult_assoc, Rinv_l by lra. lra.
Qed.

Lemma quadrado_le (a b : R) : 0 <= a -> a <= b -> a * a <= b * b.
Proof. intros. nra. Qed.

(** ** Logarithm, powers and [PI] *)

Lemma ln_10_pos : 0 < ln 10.
Proof. rewrite <- ln_1. apply ln_increasing; lra. Qed.

Lemma ln_le_sub1 (x : R) : 0 < x -> ln x <= x - 1.
Proof.
  intros Hx. pose proof (exp_ineq1_le (ln x)) as H.
  rewrite exp_ln in H by exact Hx. lra.
Qed.

Lemma ln_ge_1_inv (x : R) : 0 < x -> 1 - / x <= ln x.
Proof.
  intros Hx. assert (Hi : 0 < / x) by (apply Rinv_0_lt_compat; exact Hx).
  pose proof (ln_le_sub1 (/ x) Hi) as H. rewrite ln_Rinv in H by exact Hx.
  lra.
Qed.

Lemma ln_le_mono (x y : R) : 0 < x -> x <= y -> ln x <= ln y.
Proof.
  intros Hx [Hlt | ->].
  - left. apply ln_increasing; assumption.
  - right. reflexivity.
Qed.

Lemma ln_2_le : ln 2 <= 0.76.
Proof.
  replace 2 with (5 / 4 * (6 / 5) * (7 / 6) * (8 / 7)) by field.
  rewrite !ln_mult by lra.
  pose proof (ln_le_sub1 (5 / 4) ltac:(lra)).
  pose proof (ln_le_sub1 (6 / 5) ltac:(lra)).
  pose proof (ln_le_sub1 (7 / 6) ltac:(lra)).
  pose proof (ln_le_sub1 (8 / 7) ltac:(lra)).
  lra.
Qed.

Lemma exp_2_le_9 : exp 2 <= 9.
Proof.
  replace 2 with (1 + 1) by lra. rewrite exp_plus.
  pose proof exp_le_3 as H3. pose proof (exp_pos 1) as Hp. nra.
Qed.

Lemma ln_10_ge_2 : 2 <= ln 10.
Proof.
  rewrite <- (ln_exp 2). apply ln_le_mono; [apply exp_pos |].
  pose proof exp_2_le_9. lra.
Qed.

Lemma ln_574_ge_1 : 1 <= ln 5.74.
Proof.
  rewrite <- (ln_exp 1). apply ln_le_mono; [apply exp_pos |].
  pose proof exp_le_3. lra.
Qed.

Lemma Rpower_pos (x y : R) : 0 < Rpower x y.
Proof. unfold Rpower. apply exp_pos. Qed.

(** [x ** 0.9] is at least the square root of [x] when [x >= 1]. *)
Lemma Rpower_09_quadrado (x : R) : 1 <= x -> x <= Rpower x 0.9 * Rpower x 0.9.
Proof.
  intros Hx.
  assert (Hh : Rpower x (/ 2) <= Rpower x 0.9) by (apply Rle_Rpower; lra).
  assert (Hs : Rpower x (/ 2) * Rpower x (/ 2) = x).
  { rewrite <- Rpower_plus. replace (/ 2 + / 2) with 1 by lra.
    apply Rpower_1. lra. }
  pose proof (Rpower_pos x (/ 2)) as Hp.
  rewrite <- Hs at 1. apply Rmult_le_compat; lra.
Qed.

Lemma Rpower_09_ge_63 (x : R) : 4000 < x -> 63 < Rpower x 0.9.
Proof.
  intros Hx. pose proof (Rpower_09_quadrado x ltac:(lra)) as Hq.
  pose proof (Rpower_pos x 0.9) as Hp. nra.
Qed.

Lemma termo_de_reynolds (x : R) :
  4000 < x -> 0 < 5.74 / Rpower x 0.9 < 0.0912.
Proof.
  intros Hx. pose proof (Rpower_09_ge_63 x Hx) as H.
  split.
  - apply Rdiv_lt_0_compat; lra.
  - apply div_lt_l; lra.
Qed.

(** [ln R] against the square root of [R], for the comparison of the two
    friction formulas at the same Reynolds number. *)
Lemma ln_le_raiz (R s : R) :
  0 < s -> s * s = R -> ln R <= s / 32 + 7.12.
Proof.
  intros Hs HR. subst R. rewrite ln_mult by lra.
  assert (H64 : ln 64 <= 6 * 0.76).
  { replace 64 with (2 * 2 * 2 * 2 * 2 * 2) by lra.
    rewrite !ln_mult by lra. pose proof ln_2_le. lra. }
  assert (Hq : ln s = ln (s / 64) + ln 64).
  { rewrite <- ln_mult by lra. f_equal. field. }
  pose proof (ln_le_sub1 (s / 64) ltac:(lra)) as H.
  lra.
Qed.

Lemma PI_entre : 3.135 < PI < 3.143.
Proof.
  pose proof (PI_2_3_7_ineq 0) as [Hlo _].
  pose proof (PI_2_3_7_ineq 1) as [_ Hhi].
  unfold sum_f_R0, tg_alt, PI_2_3_7_tg, Ratan_seq in Hlo, Hhi.
  simpl in Hlo, Hhi.
  split; lra.
Qed.

(** ** The operations that may raise, and the fluid table *)

Lemma bind_Ok {A B : Type} (a : A) (k : A -> result B) :
  (x <- Ok a ;; k x) = k a.
Proof. reflexivity. Qed.

Lemma py_div_Ok (x y : R) : y <> 0 -> py_div x y = Ok (x / y).
Proof.
  intros Hy. unfold py_div. decidir. reflexivity.
Qed.

Lemma py_div_zero (x : R) : py_div x 0 = Raise ZeroDivisionError.
Proof.
  unfold py_div. decidir. reflexivity.
Qed.

Lemma fdiv_Fin (x y : R) : y <> 0 -> fdiv (Fin x) (Fin y) = Ok (Fin (x / y)).
Proof.
  intros Hy. unfold fdiv. decidir. reflexivity.
Qed.

Lemma fdiv_positive (a : pyfloat) (y : R) :
  0 < y -> exists q, fdiv a (Fin y) = Ok q.
Proof.
  intros Hy. unfold fdiv. decidir. eexists; reflexivity.
Qed.

Lemma log10_Ok (t : R) : 0 < t -> log10 t = Ok (ln t / ln 10).
Proof.
  intros Ht. unfold log10. decidir. reflexivity.
Qed.

Lemma log10_ValueError (t : R) : t <= 0 -> log10 t = Raise ValueError.
Proof.
  intros Ht. unfold log10. decidir. reflexivity.
Qed.

Lemma lookup_In {V : Type} (k : string) (d : list (string * V)) (v : V) :
  lookup k d = Some v -> In k (keys d).
Proof.
  induction d as [| [k' v'] d IH]; simpl; [discriminate |].
  destruct (String.eqb_spec k k') as [E | _].
  - intros _. left. symmetry. exact E.
  - intros H. right. apply IH. exact H.
Qed.

(** Every fluid of the table has a positive density and viscosity. *)
Lemma getitem_FLUIDOS (fluido : string) :
  In fluido (keys FLUIDOS) ->
  exists p, getitem FLUIDOS fluido = Ok p /\ 0 < rho p /\ 0 < nu p.
Proof.
  simpl. intros [E | [E | [E | [E | []]]]]; subst fluido;
    (eexists; split; [reflexivity | simpl; lra]).
Qed.

Lemma getitem_fora_da_tabela (fluido : string) :
  ~ In fluido (keys FLUIDOS) -> getitem FLUIDOS fluido = Raise KeyError.
Proof.
  simpl. intros H. unfold getitem. simpl.
  destruct (String.eqb_spec fluido agua) as [E | _]; [exfalso; auto |].
  destruct (String.eqb_spec fluido etanol) as [E | _]; [exfalso; auto |].
  destruct (String.eqb_spec fluido glicerina) as [E | _]; [exfalso; auto |].
  destruct (String.eqb_spec fluido oleo_leve) as [E | _]; [exfalso; auto 6 |].
  reflexivity.
Qed.

Lemma getitem_agua :
  getitem FLUIDOS agua = Ok (mk_propriedades 998.2 1.004e-6).
Proof. reflexivity. Qed.

(** ** The friction factor *)

Lemma swamee_jain_Ok (t : R) :
  0 < t -> t <> 1 -> swamee_jain t = Ok (0.25 / (ln t / ln 10) ^ 2).
Proof.
  intros Ht H1. unfold swamee_jain. rewrite log10_Ok, bind_Ok by exact Ht.
  apply py_div_Ok.
  pose proof ln_10_pos as H10. pose proof (ln_neq_0 t H1 Ht) as Hln.
  apply pow_nonzero. intros E. apply Hln.
  apply (Rmult_eq_reg_r (/ ln 10)).
  - rewrite Rmult_0_l. exact E.
  - apply Rinv_neq_0_compat. lra.
Qed.

Lemma swamee_jain_1 : swamee_jain 1 = Raise ZeroDivisionError.
Proof.
  unfold swamee_jain. rewrite log10_Ok, bind_Ok by lra.
  rewrite ln_1. replace ((0 / ln 10) ^ 2) with 0.
  - apply py_div_zero.
  - unfold Rdiv. rewrite Rmult_0_l. simpl. ring.
Qed.

Lemma swamee_jain_pos (t : R) :
  0 < t -> t <> 1 -> 0 < 0.25 / (ln t / ln 10) ^ 2.
Proof.
  intros Ht H1. pose proof ln_10_pos as H10.
  pose proof (ln_neq_0 t H1 Ht) as Hln.
  apply Rdiv_lt_0_compat; [lra |].
  assert (Hq : ln t / ln 10 <> 0).
  { intros E. apply Hln. apply (Rmult_eq_reg_r (/ ln 10)).
    - rewrite Rmult_0_l. exact E.
    - apply Rinv_neq_0_compat. lra. }
  simpl. rewrite Rmult_1_r. nra.
Qed.

(** The Swamee-Jain value with the logarithm to base e. *)
Lemma swamee_jain_ln (t : R) :
  0 < t -> t <> 1 ->
  0.25 / (ln t / ln 10) ^ 2 = 0.25 * (ln 10 * ln 10) / (ln t * ln t).
Proof.
  intros Ht H1. pose proof ln_10_pos as H10.
  pose proof (ln_neq_0 t H1 Ht) as Hln.
  field. split; lra.
Qed.

(** What [fator_de_atrito] is in each regime, for a positive diameter. *)
Lemma fator_de_atrito_turbulento (reynolds rugosidade_m diametro_m : R) :
  0 < diametro_m -> reynolds > 4000 ->
  let t := rugosidade_m / (3.7 * diametro_m) + 5.74 / Rpower reynolds 0.9 in
  fator_de_atrito reynolds rugosidade_m diametro_m
  = if Rgt_dec t 0 then swamee_jain t else Ok 0.
Proof.
  intros Hd Hre t. unfold fator_de_atrito.
  destruct (Rgt_dec reynolds 4000) as [_ | N]; [| contradiction].
  rewrite py_div_Ok, bind_Ok by lra.
  rewrite py_div_Ok, bind_Ok by (pose proof (Rpower_pos reynolds 0.9); lra).
  reflexivity.
Qed.

Lemma fator_de_atrito_laminar (reynolds rugosidade_m diametro_m : R) :
  0 < reynolds <= 4000 ->
  fator_de_atrito reynolds rugosidade_m diametro_m = Ok (64 / reynolds).
Proof.
  intros [H0 H4]. unfold fator_de_atrito. decidir.
  apply py_div_Ok. lra.
Qed.

Lemma fator_de_atrito_parado (reynolds rugosidade_m diametro_m : R) :
  reynolds <= 0 ->
  fator_de_atrito reynolds rugosidade_m diametro_m = Ok 0.
Proof.
  intros H0. unfold fator_de_atrito. decidir. reflexivity.
Qed.

(** ** [calcular_perda_carga] *)

Lemma area_pos (diametro_mm : R) :
  0 < diametro_mm -> 0 < (PI * (diametro_mm / 1000) ^ 2) / 4.
Proof.
  intros Hd. pose proof PI_RGT_0 as Hpi.
  assert (0 < (diametro_mm / 1000) ^ 2) by (apply pow_lt; lra).
  assert (0 < PI * (diametro_mm / 1000) ^ 2) by (apply Rmult_lt_0_compat; lra).
  lra.
Qed.

Lemma velocidade_de_eq (vazao_m3h diametro_mm : R) :
  0 < diametro_mm ->
  velocidade_de vazao_m3h diametro_mm
  = 10000 / 9 * vazao_m3h / (PI * diametro_mm ^ 2).
Proof.
  intros Hd. pose proof PI_RGT_0 as Hpi.
  unfold velocidade_de. field. lra.
Qed.

(** The Reynolds number in closed form. *)
Lemma reynolds_de_eq (vazao_m3h diametro_mm nu : R) :
  0 < diametro_mm -> 0 < nu ->
  reynolds_de vazao_m3h diametro_mm nu
  = 10 / 9 * vazao_m3h / (PI * diametro_mm * nu).
Proof.
  intros Hd Hnu. pose proof PI_RGT_0 as Hpi.
  unfold reynolds_de, velocidade_de. field. lra.
Qed.

Lemma termo_log_de_eq (vazao_m3h diametro_mm rugosidade_mm nu : R) :
  termo_log_de vazao_m3h diametro_mm rugosidade_mm nu
  = rugosidade_mm / 1000 / (3.7 * (diametro_mm / 1000))
    + 5.74 / Rpower (reynolds_de vazao_m3h diametro_mm nu) 0.9.
Proof. reflexivity. Qed.

Lemma perda_carga_eq
    (vazao_m3h diametro_mm comprimento_m rugosidade_mm k_total : R)
    (fluido : string) (p : propriedades) :
  0 < diametro_mm -> getitem FLUIDOS fluido = Ok p -> 0 < nu p ->
  calcular_perda_carga vazao_m3h diametro_mm comprimento_m rugosidade_mm
                       k_total fluido
  = (f <- fator_de_atrito (reynolds_de vazao_m3h diametro_mm (nu p))
                          (rugosidade_mm / 1000) (diametro_mm / 1000) ;;
     Ok (perdas_com_fator f vazao_m3h diametro_mm comprimento_m k_total)).
Proof.
  intros Hd Hp Hnu. unfold calcular_perda_carga.
  destruct (Rle_dec diametro_mm 0) as [H | _]; [exfalso; lra |].
  rewrite Hp, bind_Ok.
  rewrite py_div_Ok, bind_Ok by (pose proof (area_pos diametro_mm Hd); lra).
  destruct (Rgt_dec (nu p) 0) as [_ | N]; [| exfalso; lra].
  rewrite py_div_Ok, bind_Ok by lra.
  fold (velocidade_de vazao_m3h diametro_mm).
  fold (reynolds_de vazao_m3h diametro_mm (nu p)).
  destruct (fator_de_atrito _ _ _) as [f | e]; [| reflexivity].
  rewrite !bind_Ok. rewrite py_div_Ok, bind_Ok by lra.
  reflexivity.
Qed.

(** The scenario of the specification: 50 m³/h of water in a pipe of
    100 mm. *)
Lemma reynolds_50_100 : 138000 < reynolds_de 50 100 1.004e-6.
Proof.
  rewrite reynolds_de_eq by lra.
  pose proof PI_RGT_0 as Hpi. pose proof PI_4 as Hpi4.
  apply div_lt_r; nra.
Qed.

Lemma velocidade_50_100 : 1.765 < velocidade_de 50 100 < 1.775.
Proof.
  rewrite velocidade_de_eq by lra. pose proof PI_entre as [Hlo Hhi].
  split.
  - apply div_lt_r; nra.
  - apply div_lt_l; nra.
Qed.

(** *** C2: the sentinel for a diameter that is not positive *)

(** C2.  For every input whose diameter is zero or negative, whatever the
    other arguments (the fluid name included), [calcular_perda_carga]
    returns, without raising, the result whose velocity, major loss and
    minor loss are all plus infinity. *)
Theorem perda_carga_diametro_invalido
    (vazao_m3h diametro_mm comprimento_m rugosidade_mm k_total : R)
    (fluido : string) :
  diametro_mm <= 0 ->
  calcular_perda_carga vazao_m3h diametro_mm comprimento_m rugosidade_mm
                       k_total fluido
  = Ok (mk_perdas PInf PInf PInf).
Proof.
  intros Hd. unfold calcular_perda_carga. decidir. reflexivity.
Qed.

Lemma perda_carga_diametro_invalido_witness :
  calcular_perda_carga 50 (-100) 100 0.15 5 "fluido desconhecido"
  = Ok (mk_perdas PInf PInf PInf).
Proof.
  apply (perda_carga_diametro_invalido 50 (-100) 100 0.15 5
           "fluido desconhecido").
  lra.
Defined.

(** *** C1: the friction factor by regime *)

(** C1 (amended).  For every input with a positive diameter and a fluid of
    the table (whose viscosity is positive), [calcular_perda_carga] selects
    the friction factor by the Reynolds number Re and the argument
    termo_log = roughness/(3.7 d) + 5.74/Re^0.9, with no gap and no overlap:
    when Re > 4000 and termo_log > 0 (and termo_log is not 1) it is the
    Swamee-Jain value 0.25 / (log10 termo_log)²; when Re > 4000 and
    termo_log <= 0 it is 0; when 0 < Re <= 4000 it is 64/Re; when Re <= 0 it
    is 0.  In each case the major loss is f (length/d) (velocity²/(2 9.81))
    and the minor loss is K (velocity²/(2 9.81)). *)
Theorem perda_carga_regimes
    (vazao_m3h diametro_mm comprimento_m rugosidade_mm k_total : R)
    (fluido : string) (p : propriedades) :
  0 < diametro_mm -> getitem FLUIDOS fluido = Ok p ->
  let Re := reynolds_de vazao_m3h diametro_mm (nu p) in
  let t := termo_log_de vazao_m3h diametro_mm rugosidade_mm (nu p) in
  let resultado := calcular_perda_carga vazao_m3h diametro_mm comprimento_m
                     rugosidade_mm k_total fluido in
  let perdas_de f :=
    perdas_com_fator f vazao_m3h diametro_mm comprimento_m k_total in
  (Re > 4000 -> t > 0 -> t <> 1 ->
   swamee_jain t = Ok (0.25 / (ln t / ln 10) ^ 2) /\
   resultado = Ok (perdas_de (0.25 / (ln t / ln 10) ^ 2))) /\
  (Re > 4000 -> t <= 0 -> resultado = Ok (perdas_de 0)) /\
  (0 < Re <= 4000 -> resultado = Ok (perdas_de (64 / Re))) /\
  (Re <= 0 -> resultado = Ok (perdas_de 0)).
Proof.
  intros Hd Hp Re t resultado perdas_de.
  assert (Hnu : 0 < nu p).
  { unfold getitem in Hp. simpl in Hp.
    repeat match type of Hp with
           | (if ?b then _ else _) = _ => destruct b
           | match (if ?b then _ else _) with _ => _ end = _ => destruct b
           end;
      try discriminate Hp; injection Hp as <-; simpl; lra. }
  unfold resultado.
  rewrite (perda_carga_eq _ _ _ _ _ _ p Hd Hp Hnu). fold Re.
  assert (Hdm : 0 < diametro_mm / 1000) by lra.
  repeat split.
  - apply swamee_jain_Ok; assumption.
  - rewrite (fator_de_atrito_turbulento _ _ _ Hdm H). cbv zeta.
    unfold Re. rewrite <- termo_log_de_eq. fold t.
    destruct (Rgt_dec t 0) as [_ | N]; [| contradiction].
    rewrite swamee_jain_Ok by assumption. reflexivity.
  - intros Hre Ht.
    rewrite (fator_de_atrito_turbulento _ _ _ Hdm Hre). cbv zeta.
    unfold Re. rewrite <- termo_log_de_eq. fold t.
    destruct (Rgt_dec t 0) as [Hgt | _]; [exfalso; lra |]. reflexivity.
  - intros Hre. rewrite fator_de_atrito_laminar by exact Hre. reflexivity.
  - intros Hre. rewrite fator_de_atrito_parado by exact Hre. reflexivity.
Qed.

Lemma perda_carga_regimes_witness :
  let t := termo_log_de 50 100 0.15 1.004e-6 in
  swamee_jain t = Ok (0.25 / (ln t / ln 10) ^ 2) /\
  calcular_perda_carga 50 100 100 0.15 5 agua
  = Ok (perdas_com_fator (0.25 / (ln t / ln 10) ^ 2) 50 100 100 5).
Proof.
  pose proof (perda_carga_regimes 50 100 100 0.15 5 agua
                (mk_propriedades 998.2 1.004e-6)) as H.
  cbv zeta in H. cbv zeta.
  pose proof reynolds_50_100 as Hre.
  assert (Ht : 0 < termo_log_de 50 100 0.15 1.004e-6 < 1).
  { rewrite termo_log_de_eq.
    pose proof (termo_de_reynolds (reynolds_de 50 100 1.004e-6) ltac:(lra))
      as [H0 H1].
    assert (0 < 0.15 / 1000 / (3.7 * (100 / 1000)) < 0.001).
    { split; [apply Rdiv_lt_0_compat; lra | apply div_lt_l; lra]. }
    lra. }
  apply (proj1 (H ltac:(lra) getitem_agua)); simpl; lra.
Defined.

(** C1 as stated fails: with a negative roughness the flow is turbulent
    (Re > 4000) and yet the factor is not the one of the formula, which has
    no value there; the function returns the losses of the factor 0. *)
Lemma perda_carga_regimes_counterexample :
  reynolds_de 50 100 1.004e-6 > 4000 /\
  termo_log_de 50 100 (-100) 1.004e-6 < 0 /\
  swamee_jain (termo_log_de 50 100 (-100) 1.004e-6) = Raise ValueError /\
  calcular_perda_carga 50 100 100 (-100) 5 agua
  = Ok (perdas_com_fator 0 50 100 100 5) /\
  ~ perda_carga_da_especificacao 50 100 100 (-100) 5 agua 1.004e-6.
Proof.
  pose proof reynolds_50_100 as Hre.
  assert (Hre4 : reynolds_de 50 100 1.004e-6 > 4000) by lra.
  assert (Ht : termo_log_de 50 100 (-100) 1.004e-6 < 0).
  { rewrite termo_log_de_eq.
    pose proof (termo_de_reynolds _ Hre4) as [_ Hb].
    assert (-100 / 1000 / (3.7 * (100 / 1000)) < -0.27).
    { apply div_lt_l; lra. }
    lra. }
  assert (Hsj : swamee_jain (termo_log_de 50 100 (-100) 1.004e-6)
                = Raise ValueError).
  { unfold swamee_jain. rewrite log10_ValueError by lra. reflexivity. }
  split; [exact Hre4 |]. split; [exact Ht |]. split; [exact Hsj |].
  split.
  - pose proof (perda_carga_regimes 50 100 100 (-100) 5 agua
                  (mk_propriedades 998.2 1.004e-6)) as H.
    cbv zeta in H.
    apply (proj1 (proj2 (H ltac:(lra) getitem_agua))); simpl; lra.
  - intros (f & (Hturb & _ & _) & _).
    specialize (Hturb Hre4). rewrite Hsj in Hturb. discriminate Hturb.
Qed.

(** *** C4: the guard of the logarithm misses the value 1 *)

(** Apart from that value the function returns: for a positive diameter and
    a fluid of the table, every other division has a divisor that is not
    zero and the logarithm is taken of a positive number only. *)
Lemma perda_carga_retorna
    (vazao_m3h diametro_mm comprimento_m rugosidade_mm k_total : R)
    (fluido : string) (p : propriedades) :
  0 < diametro_mm -> getitem FLUIDOS fluido = Ok p -> 0 < nu p ->
  ~ (reynolds_de vazao_m3h diametro_mm (nu p) > 4000 /\
     termo_log_de vazao_m3h diametro_mm rugosidade_mm (nu p) = 1) ->
  returns (calcular_perda_carga vazao_m3h diametro_mm comprimento_m
             rugosidade_mm k_total fluido).
Proof.
  intros Hd Hp Hnu Hnot. unfold returns.
  rewrite (perda_carga_eq _ _ _ _ _ _ p Hd Hp Hnu).
  destruct (Rgt_dec (reynolds_de vazao_m3h diametro_mm (nu p)) 4000)
    as [Hturb | Hlam].
  - rewrite fator_de_atrito_turbulento by lra. cbv zeta.
    rewrite <- termo_log_de_eq.
    destruct (Rgt_dec _ 0) as [Ht | _].
    + rewrite swamee_jain_Ok; [| lra | intros E; apply Hnot; split; lra].
      eexists; reflexivity.
    + eexists; reflexivity.
  - destruct (Rgt_dec (reynolds_de vazao_m3h diametro_mm (nu p)) 0)
      as [Hpos | Hzero].
    + rewrite fator_de_atrito_laminar by lra. eexists; reflexivity.
    + rewrite fator_de_atrito_parado by lra. eexists; reflexivity.
Qed.

(** Whenever the flow is turbulent and the argument of the logarithm is 1,
    the division by the squared logarithm raises. *)
Lemma perda_carga_ZeroDivisionError
    (vazao_m3h diametro_mm comprimento_m rugosidade_mm k_total : R)
    (fluido : string) (p : propriedades) :
  0 < diametro_mm -> getitem FLUIDOS fluido = Ok p -> 0 < nu p ->
  reynolds_de vazao_m3h diametro_mm (nu p) > 4000 ->
  termo_log_de vazao_m3h diametro_mm rugosidade_mm (nu p) = 1 ->
  calcular_perda_carga vazao_m3h diametro_mm comprimento_m rugosidade_mm
                       k_total fluido = Raise ZeroDivisionError.
Proof.
  intros Hd Hp Hnu Hre Ht.
  rewrite (perda_carga_eq _ _ _ _ _ _ p Hd Hp Hnu).
  rewrite fator_de_atrito_turbulento by lra. cbv zeta.
  rewrite <- termo_log_de_eq, Ht.
  destruct (Rgt_dec 1 0) as [_ | N]; [| exfalso; lra].
  rewrite swamee_jain_1. reflexivity.
Qed.

Lemma rugosidade_critica_entre : 336 < rugosidade_critica < 370.
Proof.
  unfold rugosidade_critica.
  pose proof reynolds_50_100 as Hre.
  pose proof (termo_de_reynolds (reynolds_de 50 100 1.004e-6) ltac:(lra))
    as [H0 H1].
  lra.
Qed.

Lemma termo_log_critico : termo_log_de 50 100 rugosidade_critica 1.004e-6 = 1.
Proof.
  rewrite termo_log_de_eq. unfold rugosidade_critica.
  pose proof (Rpower_pos (reynolds_de 50 100 1.004e-6) 0.9) as Hp.
  field. lra.
Qed.

(** C4.  That no numeric input makes the function raise fails on the
    code: for 50 m³/h of water, a pipe of 100 mm by 100 m, K = 5 and the
    roughness [rugosidade_critica] (between 336 and 370 mm) the flow is
    turbulent, the argument of the logarithm is 1, its logarithm is 0, and
    [0.25 / (log10 termo_log)²] divides by zero: [calcular_perda_carga]
    raises [ZeroDivisionError]. *)
Theorem perda_carga_divisao_por_zero :
  0 < rugosidade_critica /\
  reynolds_de 50 100 1.004e-6 > 4000 /\
  termo_log_de 50 100 rugosidade_critica 1.004e-6 = 1 /\
  calcular_perda_carga 50 100 100 rugosidade_critica 5 agua
  = Raise ZeroDivisionError.
Proof.
  pose proof reynolds_50_100 as Hre.
  pose proof rugosidade_critica_entre as Hr.
  split; [lra |]. split; [lra |]. split; [exact termo_log_critico |].
  apply (perda_carga_ZeroDivisionError _ _ _ _ _ _
           (mk_propriedades 998.2 1.004e-6)).
  - lra.
  - exact getitem_agua.
  - simpl; lra.
  - simpl; lra.
  - exact termo_log_critico.
Qed.

(** ** [calcular_analise_energetica] *)

(** The power chain for a fluid of the table: the function returns, and its
    four fields are these. *)
Lemma analise_energetica_eq
    (vazao_m3h : R) (h_man : pyfloat)
    (eficiencia_bomba eficiencia_motor horas_dia custo_kwh : R)
    (fluido : string) (p : propriedades) :
  getitem FLUIDOS fluido = Ok p ->
  exists eixo eletrica kW,
    (if Rgt_dec eficiencia_bomba 0
     then fdiv (fmul (Fin (vazao_m3h / 3600 * rho p * 9.81)) h_man)
               (Fin eficiencia_bomba)
     else Ok (Fin 0)) = Ok eixo /\
    (if Rgt_dec eficiencia_motor 0
     then fdiv eixo (Fin eficiencia_motor)
     else Ok (Fin 0)) = Ok eletrica /\
    fdiv eletrica (Fin 1000) = Ok kW /\
    calcular_analise_energetica vazao_m3h h_man eficiencia_bomba
      eficiencia_motor horas_dia custo_kwh fluido
    = Ok (mk_energia kW
            (fmul (fmul kW (Fin horas_dia)) (Fin 30))
            (fmul (fmul (fmul kW (Fin horas_dia)) (Fin 30)) (Fin custo_kwh))
            (fmul (fmul (fmul kW (Fin horas_dia)) (Fin 365)) (Fin custo_kwh))).
Proof.
  intros Hp.
  set (hid := fmul (Fin (vazao_m3h / 3600 * rho p * 9.81)) h_man).
  assert (He : exists eixo,
             (if Rgt_dec eficiencia_bomba 0
              then fdiv hid (Fin eficiencia_bomba) else Ok (Fin 0)) = Ok eixo).
  { destruct (Rgt_dec eficiencia_bomba 0) as [H | _].
    - apply fdiv_positive. exact H.
    - eexists; reflexivity. }
  destruct He as [eixo He].
  assert (Hl : exists eletrica,
             (if Rgt_dec eficiencia_motor 0
              then fdiv eixo (Fin eficiencia_motor) else Ok (Fin 0))
             = Ok eletrica).
  { destruct (Rgt_dec eficiencia_motor 0) as [H | _].
    - apply fdiv_positive. exact H.
    - eexists; reflexivity. }
  destruct Hl as [eletrica Hl].
  destruct (fdiv_positive eletrica 1000) as [kW Hk]; [lra |].
  exists eixo, eletrica, kW.
  split; [exact He | split; [exact Hl | split; [exact Hk |]]].
  unfold calcular_analise_energetica. rewrite Hp, bind_Ok.
  fold hid. rewrite He, bind_Ok, Hl, bind_Ok, Hk, bind_Ok. reflexivity.
Qed.

(** With a finite head and two positive efficiencies every field is a
    number. *)
Lemma analise_energetica_finita
    (vazao_m3h h eficiencia_bomba eficiencia_motor horas_dia custo_kwh : R)
    (fluido : string) (p : propriedades) :
  getitem FLUIDOS fluido = Ok p ->
  0 < eficiencia_bomba -> 0 < eficiencia_motor ->
  let kW := vazao_m3h / 3600 * rho p * 9.81 * h / eficiencia_bomba
            / eficiencia_motor / 1000 in
  calcular_analise_energetica vazao_m3h (Fin h) eficiencia_bomba
    eficiencia_motor horas_dia custo_kwh fluido
  = Ok (mk_energia (Fin kW) (Fin (kW * horas_dia * 30))
          (Fin (kW * horas_dia * 30 * custo_kwh))
          (Fin (kW * horas_dia * 365 * custo_kwh))).
Proof.
  intros Hp Hb Hm kW.
  unfold calcular_analise_energetica. rewrite Hp, bind_Ok.
  destruct (Rgt_dec eficiencia_bomba 0) as [_ | N]; [| exfalso; lra].
  destruct (Rgt_dec eficiencia_motor 0) as [_ | N]; [| exfalso; lra].
  cbn [fmul].
  rewrite fdiv_Fin, bind_Ok by lra.
  rewrite fdiv_Fin, bind_Ok by lra.
  rewrite fdiv_Fin, bind_Ok by lra.
  reflexivity.
Qed.

(** *** C3: the two day-count bases *)

(** C3.  For every numeric input and every fluid of the table,
    [calcular_analise_energetica] returns a result in which the monthly
    consumption is (electrical power in kW times hours per day) times 30,
    the monthly cost is the monthly consumption times the tariff, and the
    annual cost is (electrical power in kW times hours per day) times 365
    times the tariff; and the annual cost is not twelve times the monthly
    cost in general: there is an input at which the two differ. *)
Theorem analise_energetica_bases_30_e_365 :
  (forall (vazao_m3h : R) (h_man : pyfloat)
          (eficiencia_bomba eficiencia_motor horas_dia custo_kwh : R)
          (fluido : string),
      In fluido (keys FLUIDOS) ->
      exists e,
        calcular_analise_energetica vazao_m3h h_man eficiencia_bomba
          eficiencia_motor horas_dia custo_kwh fluido = Ok e /\
        consumo_mensal_kWh e
        = fmul (fmul (potencia_eletrica_kW e) (Fin horas_dia)) (Fin 30) /\
        custo_mensal e = fmul (consumo_mensal_kWh e) (Fin custo_kwh) /\
        custo_anual e
        = fmul (fmul (fmul (potencia_eletrica_kW e) (Fin horas_dia)) (Fin 365))
               (Fin custo_kwh)) /\
  (exists e,
      calcular_analise_energetica 50 (Fin 30) 0.70 0.90 8 0.75 agua = Ok e /\
      custo_anual e <> fmul (Fin 12) (custo_mensal e)).
Proof.
  split.
  - intros vazao_m3h h_man eb em horas custo fluido Hin.
    destruct (getitem_FLUIDOS fluido Hin) as (p & Hp & _ & _).
    destruct (analise_energetica_eq vazao_m3h h_man eb em horas custo fluido p
                Hp) as (eixo & eletrica & kW & _ & _ & _ & Heq).
    eexists. split; [exact Heq |]. simpl. repeat split; reflexivity.
  - eexists. split.
    + apply (analise_energetica_finita 50 30 0.70 0.90 8 0.75 agua _
               getitem_agua); lra.
    + simpl. intros H. injection H as H. lra.
Qed.

Lemma analise_energetica_bases_30_e_365_witness :
  exists e,
    calcular_analise_energetica 50 (Fin 30) 0.70 0.90 8 0.75 agua = Ok e /\
    consumo_mensal_kWh e
    = fmul (fmul (potencia_eletrica_kW e) (Fin 8)) (Fin 30) /\
    custo_mensal e = fmul (consumo_mensal_kWh e) (Fin 0.75) /\
    custo_anual e
    = fmul (fmul (fmul (potencia_eletrica_kW e) (Fin 8)) (Fin 365)) (Fin 0.75).
Proof.
  apply (proj1 analise_energetica_bases_30_e_365 50 (Fin 30) 0.70 0.90 8 0.75
           agua).
  simpl. left. reflexivity.
Defined.

(** *** C6: efficiencies that are not positive *)

(** C6.  For every input and every fluid of the table,
    [calcular_analise_energetica] returns without raising; when the pump
    efficiency or the motor efficiency is zero or negative the electrical
    power is 0, and with it the monthly consumption and the two costs; when
    both are positive the shaft power is the hydraulic power divided by the
    pump efficiency, the electrical power is the shaft power divided by the
    motor efficiency, and the power returned is the electrical power divided
    by 1000. *)
Theorem analise_energetica_eficiencias
    (vazao_m3h : R) (h_man : pyfloat)
    (eficiencia_bomba eficiencia_motor horas_dia custo_kwh : R)
    (fluido : string) (p : propriedades) :
  getitem FLUIDOS fluido = Ok p ->
  exists e,
    calcular_analise_energetica vazao_m3h h_man eficiencia_bomba
      eficiencia_motor horas_dia custo_kwh fluido = Ok e /\
    (eficiencia_bomba <= 0 \/ eficiencia_motor <= 0 ->
     potencia_eletrica_kW e = Fin 0 /\ consumo_mensal_kWh e = Fin 0 /\
     custo_mensal e = Fin 0 /\ custo_anual e = Fin 0) /\
    (0 < eficiencia_bomba -> 0 < eficiencia_motor ->
     exists eixo eletrica,
       fdiv (fmul (Fin (vazao_m3h / 3600 * rho p * 9.81)) h_man)
            (Fin eficiencia_bomba) = Ok eixo /\
       fdiv eixo (Fin eficiencia_motor) = Ok eletrica /\
       fdiv eletrica (Fin 1000) = Ok (potencia_eletrica_kW e)).
Proof.
  intros Hp.
  destruct (analise_energetica_eq vazao_m3h h_man eficiencia_bomba
              eficiencia_motor horas_dia custo_kwh fluido p Hp)
    as (eixo & eletrica & kW & He & Hl & Hk & Heq).
  eexists. split; [exact Heq |]. cbn [potencia_eletrica_kW consumo_mensal_kWh
                                        custo_mensal custo_anual].
  split.
  - intros Hz.
    assert (Hel : eletrica = Fin 0).
    { destruct (Rgt_dec eficiencia_motor 0) as [Hm | Hm].
      - destruct Hz as [Hb | Hm']; [| exfalso; lra].
        destruct (Rgt_dec eficiencia_bomba 0) as [Hb' | _]; [exfalso; lra |].
        injection He as He. subst eixo.
        rewrite fdiv_Fin in Hl by lra. injection Hl as Hl. subst eletrica.
        f_equal. unfold Rdiv. apply Rmult_0_l.
      - injection Hl as Hl. symmetry. exact Hl. }
    subst eletrica. rewrite fdiv_Fin in Hk by lra. injection Hk as Hk.
    assert (HkW : kW = Fin 0).
    { rewrite <- Hk. f_equal. unfold Rdiv. apply Rmult_0_l. }
    rewrite HkW. cbn [fmul]. rewrite !Rmult_0_l. repeat split; reflexivity.
  - intros Hb Hm.
    destruct (Rgt_dec eficiencia_bomba 0) as [_ | N]; [| exfalso; lra].
    destruct (Rgt_dec eficiencia_motor 0) as [_ | N]; [| exfalso; lra].
    exists eixo, eletrica. repeat split; assumption.
Qed.

Lemma analise_energetica_eficiencias_witness :
  exists e,
    calcular_analise_energetica 50 (Fin 30) 0 0.90 8 0.75 agua = Ok e /\
    (0 <= 0 \/ 0.90 <= 0 ->
     potencia_eletrica_kW e = Fin 0 /\ consumo_mensal_kWh e = Fin 0 /\
     custo_mensal e = Fin 0 /\ custo_anual e = Fin 0) /\
    (0 < 0 -> 0 < 0.90 ->
     exists eixo eletrica,
       fdiv (fmul (Fin (50 / 3600 * 998.2 * 9.81)) (Fin 30)) (Fin 0)
       = Ok eixo /\
       fdiv eixo (Fin 0.90) = Ok eletrica /\
       fdiv eletrica (Fin 1000) = Ok (potencia_eletrica_kW e)).
Proof.
  apply (analise_energetica_eficiencias 50 (Fin 30) 0 0.90 8 0.75 agua
           (mk_propriedades 998.2 1.004e-6)).
  reflexivity.
Defined.

(** *** C10: a fluid that is not in the table *)

(** C10.  The fluid must be one of the four names of [FLUIDOS]: for any
    other name [calcular_perda_carga] with a positive diameter and
    [calcular_analise_energetica] with any arguments raise [KeyError]
    instead of returning a sentinel result. *)
Theorem fluido_fora_da_tabela (fluido : string) :
  ~ In fluido (keys FLUIDOS) ->
  (forall vazao_m3h diametro_mm comprimento_m rugosidade_mm k_total : R,
      0 < diametro_mm ->
      calcular_perda_carga vazao_m3h diametro_mm comprimento_m rugosidade_mm
                           k_total fluido = Raise KeyError) /\
  (forall (vazao_m3h : R) (h_man : pyfloat)
          (eficiencia_bomba eficiencia_motor horas_dia custo_kwh : R),
      calcular_analise_energetica vazao_m3h h_man eficiencia_bomba
        eficiencia_motor horas_dia custo_kwh fluido = Raise KeyError).
Proof.
  intros Hout. pose proof (getitem_fora_da_tabela fluido Hout) as Hk.
  split.
  - intros vazao_m3h diametro_mm comprimento_m rugosidade_mm k_total Hd.
    unfold calcular_perda_carga.
    destruct (Rle_dec diametro_mm 0) as [Hle | _]; [exfalso; lra |].
    rewrite Hk. reflexivity.
  - intros. unfold calcular_analise_energetica. rewrite Hk. reflexivity.
Qed.

Lemma fluido_fora_da_tabela_witness :
  calcular_perda_carga 50 100 100 0.15 5 "Mercurio" = Raise KeyError /\
  calcular_analise_energetica 50 (Fin 30) 0.70 0.90 8 0.75 "Mercurio"
  = Raise KeyError.
Proof.
  assert (Hout : ~ In "Mercurio"%string (keys FLUIDOS)).
  { simpl. intros [E | [E | [E | [E | []]]]]; discriminate E. }
  split.
  - apply (proj1 (fluido_fora_da_tabela "Mercurio" Hout)). lra.
  - apply (proj2 (fluido_fora_da_tabela "Mercurio" Hout)).
Defined.

(** ** C9: the scenario of the specification *)

(** C9.  For 50 m³/h of water (density 998.2, viscosity 1.004e-6) in a pipe
    of 100 mm by 100 m with roughness 0.15 mm and K = 5, and any geometric
    head that is not negative: the velocity is 1.77 m/s to two decimals, the
    Reynolds number is above 4000 and the friction factor is the
    Swamee-Jain value, the major and the minor loss are finite and strictly
    positive; with the head made of these losses, pump efficiency 0.70,
    motor efficiency 0.90, 8 hours a day and tariff 0.75 the electrical
    power and the annual cost are finite and strictly positive. *)
Theorem cenario_agua_50_100 (h_geometrica : R) :
  0 <= h_geometrica ->
  exists v f hp hl kW mensal_kWh mensal anual,
    analise_da_tubulacao 50 100 100 0.15 5 agua h_geometrica 0.70 0.90 8 0.75
    = Ok (mk_perdas (Fin hp) (Fin hl) (Fin v),
          mk_energia (Fin kW) (Fin mensal_kWh) (Fin mensal) (Fin anual)) /\
    Rabs (v - 1.77) < 0.005 /\
    reynolds_de 50 100 1.004e-6 > 4000 /\
    swamee_jain (termo_log_de 50 100 0.15 1.004e-6) = Ok f /\
    hp = f * (100 / (100 / 1000)) * (v ^ 2 / (2 * 9.81)) /\
    hl = 5 * (v ^ 2 / (2 * 9.81)) /\
    0 < hp /\ 0 < hl /\ 0 < kW /\ 0 < anual.
Proof.
  intros Hg.
  pose proof reynolds_50_100 as Hre.
  pose proof velocidade_50_100 as Hv.
  set (t := termo_log_de 50 100 0.15 1.004e-6).
  assert (Ht : 0 < t < 1).
  { unfold t. rewrite termo_log_de_eq.
    pose proof (termo_de_reynolds (reynolds_de 50 100 1.004e-6) ltac:(lra))
      as [H0 H1].
    assert (0 < 0.15 / 1000 / (3.7 * (100 / 1000)) < 0.001).
    { split; [apply Rdiv_lt_0_compat; lra | apply div_lt_l; lra]. }
    lra. }
  pose proof (swamee_jain_pos t ltac:(lra) ltac:(lra)) as Hf.
  pose proof (swamee_jain_Ok t ltac:(lra) ltac:(lra)) as Hsj.
  set (f := 0.25 / (ln t / ln 10) ^ 2) in *.
  set (v := velocidade_de 50 100) in *.
  assert (Hc : 0 < v ^ 2 / (2 * 9.81)).
  { apply Rdiv_lt_0_compat; [apply pow_lt |]; lra. }
  assert (Hhp : 0 < f * (100 / (100 / 1000)) * (v ^ 2 / (2 * 9.81))).
  { apply Rmult_lt_0_compat; [apply Rmult_lt_0_compat |]; lra. }
  assert (Hhl : 0 < 5 * (v ^ 2 / (2 * 9.81))) by lra.
  set (hp := f * (100 / (100 / 1000)) * (v ^ 2 / (2 * 9.81))) in *.
  set (hl := 5 * (v ^ 2 / (2 * 9.81))) in *.
  set (kW := 50 / 3600 * 998.2 * 9.81 * (h_geometrica + hp + hl)
             / 0.70 / 0.90 / 1000).
  assert (HkW : 0 < kW).
  { unfold kW. assert (0 < h_geometrica + hp + hl) by lra.
    assert (0 < 50 / 3600 * 998.2 * 9.81 * (h_geometrica + hp + hl)) by nra.
    lra. }
  exists v, f, hp, hl, kW, (kW * 8 * 30), (kW * 8 * 30 * 0.75),
    (kW * 8 * 365 * 0.75).
  split.
  - unfold analise_da_tubulacao.
    pose proof (perda_carga_regimes 50 100 100 0.15 5 agua
                  (mk_propriedades 998.2 1.004e-6)) as H.
    cbv zeta in H.
    destruct (proj1 (H ltac:(lra) getitem_agua)) as [_ Hcalc];
      [simpl; lra | simpl; fold t; lra | simpl; fold t; lra |].
    simpl nu in Hcalc. fold t in Hcalc. fold f in Hcalc.
    rewrite Hcalc, bind_Ok.
    unfold perdas_com_fator. fold v. cbn [principal localizada fadd].
    fold hp hl.
    rewrite (analise_energetica_finita 50 (h_geometrica + hp + hl) 0.70 0.90
               8 0.75 agua _ getitem_agua) by lra.
    rewrite bind_Ok. reflexivity.
  - split; [apply Rabs_def1; lra |].
    split; [lra |].
    split; [exact Hsj |].
    split; [reflexivity |]. split; [reflexivity |].
    split; [exact Hhp |]. split; [exact Hhl |]. split; [exact HkW |]. lra.
Qed.

Lemma cenario_agua_50_100_witness :
  exists v f hp hl kW mensal_kWh mensal anual,
    analise_da_tubulacao 50 100 100 0.15 5 agua 15 0.70 0.90 8 0.75
    = Ok (mk_perdas (Fin hp) (Fin hl) (Fin v),
          mk_energia (Fin kW) (Fin mensal_kWh) (Fin mensal) (Fin anual)) /\
    Rabs (v - 1.77) < 0.005 /\
    reynolds_de 50 100 1.004e-6 > 4000 /\
    swamee_jain (termo_log_de 50 100 0.15 1.004e-6) = Ok f /\
    hp = f * (100 / (100 / 1000)) * (v ^ 2 / (2 * 9.81)) /\
    hl = 5 * (v ^ 2 / (2 * 9.81)) /\
    0 < hp /\ 0 < hl /\ 0 < kW /\ 0 < anual.
Proof.
  apply (cenario_agua_50_100 15). lra.
Defined.

(** ** C7: [gerar_sugestoes] *)

(** The list is the concatenation of five parts, each empty or one message,
    in the order of the source. *)
Lemma gerar_sugestoes_eq
    (eficiencia_bomba eficiencia_motor : R) (custo_anual velocidade : pyfloat) :
  gerar_sugestoes eficiencia_bomba eficiencia_motor custo_anual velocidade
  = (if fgtb velocidade (Fin 3.0) then [VelocidadeAlta velocidade]
     else if fltb velocidade (Fin 0.5) then [VelocidadeBaixa velocidade]
     else [])
    ++ (if Rlt_dec eficiencia_bomba 0.6 then [BombaIneficiente] else [])
    ++ (if Rlt_dec eficiencia_motor 0.85 then [MotorIneficiente] else [])
    ++ (if fgtb custo_anual (Fin 5000) then [InversorDeFrequencia] else [])
    ++ [ManutencaoPreventiva].
Proof.
  unfold gerar_sugestoes.
  destruct (fgtb velocidade (Fin 3.0)); [| destruct (fltb velocidade (Fin 0.5))];
    destruct (Rlt_dec eficiencia_bomba 0.6);
    destruct (Rlt_dec eficiencia_motor 0.85);
    destruct (fgtb custo_anual (Fin 5000)); reflexivity.
Qed.

(** Membership in the list, message by message. *)
Lemma em_sugestoes (x : sugestao) (eb em : R) (c v : pyfloat) :
  In x (gerar_sugestoes eb em c v) <->
  (x = VelocidadeAlta v /\ fgtb v (Fin 3.0) = true) \/
  (x = VelocidadeBaixa v /\ fgtb v (Fin 3.0) = false /\ fltb v (Fin 0.5) = true) \/
  (x = BombaIneficiente /\ eb < 0.6) \/
  (x = MotorIneficiente /\ em < 0.85) \/
  (x = InversorDeFrequencia /\ fgtb c (Fin 5000) = true) \/
  x = ManutencaoPreventiva.
Proof.
  rewrite gerar_sugestoes_eq, !in_app_iff.
  destruct (fgtb v (Fin 3.0)); [| destruct (fltb v (Fin 0.5))];
    destruct (Rlt_dec eb 0.6); destruct (Rlt_dec em 0.85);
    destruct (fgtb c (Fin 5000)); simpl;
    intuition (try congruence; try lra; auto).
Qed.

(** C7.  For every input the list of [gerar_sugestoes] is, in this order:
    the high-velocity warning when velocity > 3.0, else the low-velocity
    warning when velocity < 0.5, else neither; the pump advisory exactly
    when the pump efficiency is below 0.6; the motor advisory exactly when
    the motor efficiency is below 0.85; the annual-cost advisory exactly
    when the annual cost is above 5000; and the maintenance advisory, always
    and last.  The two velocity warnings are never both in the list, and
    none is when 0.5 <= velocity <= 3.0. *)
Theorem gerar_sugestoes_regras
    (eficiencia_bomba eficiencia_motor : R) (custo_anual velocidade : pyfloat) :
  let s := gerar_sugestoes eficiencia_bomba eficiencia_motor custo_anual
                           velocidade in
  s = (if fgtb velocidade (Fin 3.0) then [VelocidadeAlta velocidade]
       else if fltb velocidade (Fin 0.5) then [VelocidadeBaixa velocidade]
       else [])
      ++ (if Rlt_dec eficiencia_bomba 0.6 then [BombaIneficiente] else [])
      ++ (if Rlt_dec eficiencia_motor 0.85 then [MotorIneficiente] else [])
      ++ (if fgtb custo_anual (Fin 5000) then [InversorDeFrequencia] else [])
      ++ [ManutencaoPreventiva] /\
  last s BombaIneficiente = ManutencaoPreventiva /\
  (forall v1 v2, ~ (In (VelocidadeAlta v1) s /\ In (VelocidadeBaixa v2) s)) /\
  (forall v, In (VelocidadeAlta v) s <->
             v = velocidade /\ fgtb velocidade (Fin 3.0) = true) /\
  (forall v, In (VelocidadeBaixa v) s <->
             v = velocidade /\ fgtb velocidade (Fin 3.0) = false /\
             fltb velocidade (Fin 0.5) = true) /\
  (forall x, velocidade = Fin x -> 0.5 <= x <= 3.0 ->
             forall v, ~ In (VelocidadeAlta v) s /\ ~ In (VelocidadeBaixa v) s) /\
  (In BombaIneficiente s <-> eficiencia_bomba < 0.6) /\
  (In MotorIneficiente s <-> eficiencia_motor < 0.85) /\
  (In InversorDeFrequencia s <-> fgtb custo_anual (Fin 5000) = true) /\
  In ManutencaoPreventiva s.
Proof.
  intros s.
  assert (Halta : forall v, In (VelocidadeAlta v) s <->
                            v = velocidade /\ fgtb velocidade (Fin 3.0) = true).
  { intros v. unfold s. rewrite em_sugestoes. intuition congruence. }
  assert (Hbaixa : forall v, In (VelocidadeBaixa v) s <->
                             v = velocidade /\
                             fgtb velocidade (Fin 3.0) = false /\
                             fltb velocidade (Fin 0.5) = true).
  { intros v. unfold s. rewrite em_sugestoes. intuition congruence. }
  split; [apply gerar_sugestoes_eq |].
  split.
  { unfold s. rewrite gerar_sugestoes_eq, !app_assoc. apply last_last. }
  split.
  { intros v1 v2 [H1 H2]. apply Halta in H1. apply Hbaixa in H2.
    destruct H1 as [_ H1]. destruct H2 as [_ [H2 _]]. congruence. }
  split; [exact Halta |].
  split; [exact Hbaixa |].
  split.
  { intros x Hx Hr v. rewrite Halta, Hbaixa. subst velocidade.
    unfold fltb. simpl.
    destruct (Rgt_dec x 3.0); [exfalso; lra |].
    destruct (Rgt_dec 0.5 x); [exfalso; lra |].
    split; intros H; intuition discriminate. }
  unfold s. rewrite !em_sugestoes.
  repeat split; intuition (try congruence; auto).
Qed.

Lemma gerar_sugestoes_regras_witness :
  (forall v, In (VelocidadeAlta v) (gerar_sugestoes 0.5 0.8 (Fin 6000) (Fin 3.5))
             <-> v = Fin 3.5 /\ fgtb (Fin 3.5) (Fin 3.0) = true) /\
  In (VelocidadeAlta (Fin 3.5)) (gerar_sugestoes 0.5 0.8 (Fin 6000) (Fin 3.5)).
Proof.
  pose proof (gerar_sugestoes_regras 0.5 0.8 (Fin 6000) (Fin 3.5)) as H.
  cbv zeta in H.
  destruct H as (_ & _ & _ & Halta & _).
  split.
  - exact Halta.
  - apply (proj2 (Halta (Fin 3.5))). split; [reflexivity |].
    simpl. destruct (Rgt_dec 3.5 3.0) as [_ | N]; [reflexivity | exfalso; lra].
Defined.

(** ** C5: [gerar_grafico_diametro_custo] never returns *)

Lemma py_max_eq (a b : R) : py_max a b = Rmax a b.
Proof.
  unfold py_max, Rmax.
  destruct (Rgt_dec b a) as [H | H]; destruct (Rle_dec a b) as [H' | H'];
    try reflexivity; lra.
Qed.

Lemma diametros_mm_eq (base : R) :
  let start := py_max 25 (base * 0.5) in
  let stop := base * 2 in
  let step := (stop - start) / 19 in
  diametros_mm base
  = map (fun i => INR i * step + start) (seq 0 19) ++ [stop].
Proof.
  cbv zeta. unfold diametros_mm, linspace.
  replace (INR (20 - 1)) with 19 by (simpl; lra).
  reflexivity.
Qed.

(** On values of the kinds that the parameters expect, the body on the
    values of a dict is the function itself. *)
Lemma calcular_perda_carga_valores_eq
    (vazao_m3h diametro_mm comprimento_m rugosidade_mm k_total : R)
    (fluido : string) :
  calcular_perda_carga_valores (VNum vazao_m3h) diametro_mm
    (VNum comprimento_m) (VNum rugosidade_mm) (VNum k_total) (VStr fluido)
  = calcular_perda_carga vazao_m3h diametro_mm comprimento_m rugosidade_mm
                         k_total fluido.
Proof.
  unfold calcular_perda_carga_valores, calcular_perda_carga.
  destruct (Rle_dec diametro_mm 0); [reflexivity |].
  cbn [numero getitem_valor]. rewrite !bind_Ok.
  destruct (getitem FLUIDOS fluido) as [p | e]; [| reflexivity].
  rewrite !bind_Ok.
  destruct (py_div _ _) as [v | e]; [| reflexivity].
  rewrite !bind_Ok.
  destruct (if Rgt_dec (nu p) 0 then _ else _) as [re | e]; [| reflexivity].
  rewrite !bind_Ok.
  destruct (fator_de_atrito _ _ _) as [f | e]; [| reflexivity].
  rewrite !bind_Ok.
  destruct (py_div _ _) as [q | e]; [| reflexivity].
  rewrite !bind_Ok. reflexivity.
Qed.

Lemma calcular_analise_energetica_valores_eq
    (vazao_m3h : R) (h_man : pyfloat)
    (eficiencia_bomba eficiencia_motor horas_dia custo_kwh : R)
    (fluido : string) :
  calcular_analise_energetica_valores (VNum vazao_m3h) h_man
    (VNum eficiencia_bomba) (VNum eficiencia_motor) (VNum horas_dia)
    (VNum custo_kwh) (VStr fluido)
  = calcular_analise_energetica vazao_m3h h_man eficiencia_bomba
      eficiencia_motor horas_dia custo_kwh fluido.
Proof. reflexivity. Qed.

(** A number given as the fluid is the key of no entry: the function raises
    [KeyError] at line 34 for a positive diameter, and still returns the
    sentinel for the others. *)
Lemma calcular_perda_carga_valores_KeyError
    (vazao_m3h diametro_mm comprimento_m rugosidade_mm : R)
    (k_total : valor) (x : R) :
  0 < diametro_mm ->
  calcular_perda_carga_valores (VNum vazao_m3h) diametro_mm
    (VNum comprimento_m) (VNum rugosidade_mm) k_total (VNum x)
  = Raise KeyError.
Proof.
  intros Hd. unfold calcular_perda_carga_valores.
  destruct (Rle_dec diametro_mm 0) as [H | _]; [exfalso; lra |].
  reflexivity.
Qed.

(** With the dict of lines 240 to 244 alone the first call is the call of
    [calcular_perda_carga] on its values, and the second call raises. *)
Lemma chamar_perda_carga_eq
    (d_mm vazao comp_tub rug_tub k_total_acessorios : R) (fluido : string) :
  let kw := [ ("vazao_m3h", VNum vazao); ("comprimento_m", VNum comp_tub);
              ("rugosidade_mm", VNum rug_tub);
              ("k_total", VNum k_total_acessorios);
              ("fluido_selecionado", VStr fluido) ]%string in
  chamar_perda_carga d_mm kw
  = calcular_perda_carga vazao d_mm comp_tub rug_tub k_total_acessorios fluido
  /\ forall h_man, chamar_analise_energetica h_man kw = Raise TypeError.
Proof.
  cbv zeta. split.
  - unfold chamar_perda_carga. cbn [vincular keys map fst existsb mem
      String.eqb Ascii.eqb Bool.eqb orb negb forallb andb
      parametros_perda_carga filter mapM lookup bind].
    apply calcular_perda_carga_valores_eq.
  - intros h_man. reflexivity.
Qed.

(** A dict that gives [calcular_perda_carga] its arguments has the key
    [comprimento_m], which [calcular_analise_energetica] does not accept. *)
Lemma chamar_perda_carga_Ok (d_mm : R) (kw : kwargs) (p : perdas) :
  chamar_perda_carga d_mm kw = Ok p -> In "comprimento_m"%string (keys kw).
Proof.
  unfold chamar_perda_carga, vincular.
  destruct (existsb _ (keys kw)); [discriminate |].
  destruct (negb _); [discriminate |].
  cbn [parametros_perda_carga filter mem existsb String.eqb Ascii.eqb
       Bool.eqb negb orb mapM].
  destruct (lookup "vazao_m3h" kw); [| discriminate].
  rewrite bind_Ok.
  destruct (lookup "comprimento_m" kw) as [c |] eqn:E; [| discriminate].
  intros _. apply (lookup_In _ _ c E).
Qed.

Lemma chamar_analise_energetica_TypeError (h_man : pyfloat) (kw : kwargs) :
  In "comprimento_m"%string (keys kw) ->
  chamar_analise_energetica h_man kw = Raise TypeError.
Proof.
  intros Hin. unfold chamar_analise_energetica, vincular.
  destruct (existsb _ (keys kw)); [reflexivity |].
  destruct (forallb (fun k => mem k parametros_analise_energetica) (keys kw))
    eqn:E.
  - exfalso. rewrite forallb_forall in E. specialize (E _ Hin).
    discriminate E.
  - reflexivity.
Qed.

(** The body of the loop for one diameter never returns: the two calls
    receive the same dict, and no dict fits both signatures. *)
Lemma corpo_do_laco_levanta (h_geometrica d_mm : R) (kw : kwargs) :
  exists e,
    (perdas <- chamar_perda_carga d_mm kw ;;
     resultado_energia <-
       chamar_analise_energetica
         (fadd (fadd (Fin h_geometrica) (principal perdas)) (localizada perdas))
         kw ;;
     Ok (custo_anual resultado_energia)) = Raise e.
Proof.
  destruct (chamar_perda_carga d_mm kw) as [p | e] eqn:E.
  - rewrite bind_Ok.
    rewrite chamar_analise_energetica_TypeError
      by (apply (chamar_perda_carga_Ok d_mm kw p E)).
    exists TypeError. reflexivity.
  - exists e. reflexivity.
Qed.

(** With the dict that the script builds, the first call already fails: the
    dict carries [eficiencia_bomba], which [calcular_perda_carga] does not
    accept. *)
Lemma gerar_grafico_TypeError
    (diametro_base_mm h_geometrica vazao comp_tub rug_tub k_total_acessorios
     rend_bomba rend_motor horas_por_dia tarifa_energia : R)
    (fluido : string) :
  gerar_grafico_diametro_custo diametro_base_mm h_geometrica
    (params_gerais vazao comp_tub rug_tub k_total_acessorios rend_bomba
       rend_motor horas_por_dia tarifa_energia fluido)
  = Raise TypeError.
Proof.
  unfold gerar_grafico_diametro_custo.
  rewrite diametros_mm_eq. cbv zeta. cbn [seq map app mapM].
  reflexivity.
Qed.

(** C5.  The function returns no pairs.  For every base diameter, geometric
    head and dict of keyword arguments, [gerar_grafico_diametro_custo]
    raises in the first pass of its loop: the same dict goes to
    [calcular_perda_carga] and to [calcular_analise_energetica], and no dict
    fits both signatures.  At the call of the script (line 254) with the
    default values of the widgets (a base diameter of 100 mm, a geometric
    head of 15 m and the dict of lines 240 to 252) the exception is
    [TypeError], where the docstring of the function announces the data of
    the chart. *)
Theorem gerar_grafico_diametro_custo_levanta :
  (forall (diametro_base_mm h_geometrica : R) (kw : kwargs),
      exists e,
        gerar_grafico_diametro_custo diametro_base_mm h_geometrica kw
        = Raise e) /\
  gerar_grafico_diametro_custo 100 15
    (params_gerais 50 100 0.15 5 70 90 8 0.75 agua)
  = Raise TypeError.
Proof.
  split.
  - intros diametro_base_mm h_geometrica kw.
    unfold gerar_grafico_diametro_custo.
    rewrite diametros_mm_eq. cbv zeta. cbn [seq map app mapM].
    destruct (corpo_do_laco_levanta h_geometrica
                (INR 0 * ((diametro_base_mm * 2
                           - py_max 25 (diametro_base_mm * 0.5)) / 19)
                 + py_max 25 (diametro_base_mm * 0.5)) kw) as [e He].
    exists e. rewrite He. reflexivity.
  - apply gerar_grafico_TypeError.
Qed.

(** ** C8: the annual cost can grow with the diameter *)

(** *** The chain for one diameter *)

(** The annual cost for a head [h]. *)
Lemma custo_anual_do_diametro_eq
    (vazao_m3h comprimento_m rugosidade_mm k_total : R) (fluido : string)
    (h_geometrica eficiencia_bomba eficiencia_motor horas_dia custo_kwh : R)
    (diametro_mm : R) (p : propriedades) (f : R) :
  0 < diametro_mm -> getitem FLUIDOS fluido = Ok p -> 0 < nu p ->
  0 < eficiencia_bomba -> 0 < eficiencia_motor ->
  fator_de_atrito (reynolds_de vazao_m3h diametro_mm (nu p))
                  (rugosidade_mm / 1000) (diametro_mm / 1000) = Ok f ->
  let v := velocidade_de vazao_m3h diametro_mm in
  let h := h_geometrica
           + f * (comprimento_m / (diametro_mm / 1000)) * (v ^ 2 / (2 * 9.81))
           + k_total * (v ^ 2 / (2 * 9.81)) in
  custo_anual_do_diametro vazao_m3h comprimento_m rugosidade_mm k_total fluido
    h_geometrica eficiencia_bomba eficiencia_motor horas_dia custo_kwh
    diametro_mm
  = Ok (Fin (vazao_m3h / 3600 * rho p * 9.81 * h / eficiencia_bomba
             / eficiencia_motor / 1000 * horas_dia * 365 * custo_kwh)).
Proof.
  intros Hd Hp Hnu Hb Hm Hf v h.
  unfold custo_anual_do_diametro, analise_da_tubulacao.
  rewrite (perda_carga_eq _ _ _ _ _ _ p Hd Hp Hnu), Hf, !bind_Ok.
  unfold perdas_com_fator. fold v. cbn [principal localizada fadd].
  fold h.
  rewrite (analise_energetica_finita _ h _ _ _ _ _ p Hp Hb Hm), !bind_Ok.
  reflexivity.
Qed.

(** The head is the only place where the diameter enters the cost. *)
Lemma custo_monotono_na_altura
    (vazao_m3h densidade eficiencia_bomba eficiencia_motor horas_dia custo_kwh
     h1 h2 : R) :
  0 < vazao_m3h -> 0 < densidade -> 0 < eficiencia_bomba ->
  0 < eficiencia_motor -> 0 < horas_dia -> 0 < custo_kwh ->
  h2 <= h1 ->
  vazao_m3h / 3600 * densidade * 9.81 * h2 / eficiencia_bomba
  / eficiencia_motor / 1000 * horas_dia * 365 * custo_kwh
  <= vazao_m3h / 3600 * densidade * 9.81 * h1 / eficiencia_bomba
     / eficiencia_motor / 1000 * horas_dia * 365 * custo_kwh.
Proof.
  intros Hq Hr Hb Hm Hh Hc Hle.
  assert (Hk : 0 < vazao_m3h / 3600 * densidade * 9.81 / eficiencia_bomba
                   / eficiencia_motor / 1000 * horas_dia * 365 * custo_kwh).
  { assert (H1 : 0 < vazao_m3h / 3600 * densidade * 9.81) by nra.
    assert (H2 : 0 < vazao_m3h / 3600 * densidade * 9.81 / eficiencia_bomba)
      by (apply Rdiv_lt_0_compat; assumption).
    assert (H3 : 0 < vazao_m3h / 3600 * densidade * 9.81 / eficiencia_bomba
                     / eficiencia_motor)
      by (apply Rdiv_lt_0_compat; assumption).
    assert (H4 : 0 < vazao_m3h / 3600 * densidade * 9.81 / eficiencia_bomba
                     / eficiencia_motor / 1000 * horas_dia * 365) by nra.
    apply Rmult_lt_0_compat; assumption. }
  set (k := vazao_m3h / 3600 * densidade * 9.81 / eficiencia_bomba
            / eficiencia_motor / 1000 * horas_dia * 365 * custo_kwh) in Hk.
  replace (vazao_m3h / 3600 * densidade * 9.81 * h2 / eficiencia_bomba
           / eficiencia_motor / 1000 * horas_dia * 365 * custo_kwh)
    with (k * h2) by (unfold k; field; lra).
  replace (vazao_m3h / 3600 * densidade * 9.81 * h1 / eficiencia_bomba
           / eficiencia_motor / 1000 * horas_dia * 365 * custo_kwh)
    with (k * h1) by (unfold k; field; lra).
  apply Rmult_le_compat_l; lra.
Qed.

(** The major loss is the factor over the fifth power of the diameter, times
    a constant of the installation. *)
Lemma perda_principal_eq (f vazao_m3h comprimento_m diametro_mm : R) :
  0 < diametro_mm ->
  f * (comprimento_m / (diametro_mm / 1000))
  * (velocidade_de vazao_m3h diametro_mm ^ 2 / (2 * 9.81))
  = f / diametro_mm ^ 5
    * (1000 * comprimento_m * (10000 / 9 * vazao_m3h / PI) ^ 2 / (2 * 9.81)).
Proof.
  intros Hd. rewrite velocidade_de_eq by exact Hd.
  pose proof PI_RGT_0. field. split; lra.
Qed.

Lemma perda_localizada_eq (k_total vazao_m3h diametro_mm : R) :
  0 < diametro_mm ->
  k_total * (velocidade_de vazao_m3h diametro_mm ^ 2 / (2 * 9.81))
  = k_total / diametro_mm ^ 4
    * ((10000 / 9 * vazao_m3h / PI) ^ 2 / (2 * 9.81)).
Proof.
  intros Hd. rewrite velocidade_de_eq by exact Hd.
  pose proof PI_RGT_0. field. split; lra.
Qed.

(** *** The two formulas of the friction factor at one Reynolds number *)

(** Above Re = 4000 the turbulent factor is at least what the laminar
    formula would give at the same Reynolds number, whenever the argument
    of the logarithm is below 1 and the roughness is not negative. *)
Lemma laminar_abaixo_do_turbulento (Re t : R) :
  4000 < Re -> 0 < t < 1 -> 5.74 / Rpower Re 0.9 <= t ->
  64 / Re <= 0.25 / (ln t / ln 10) ^ 2.
Proof.
  intros HRe [Ht0 Ht1] Hq.
  set (s := Rpower Re (/ 2)).
  assert (Hs0 : 0 < s) by apply Rpower_pos.
  assert (Hss : s * s = Re).
  { unfold s. rewrite <- Rpower_plus. replace (/ 2 + / 2) with 1 by lra.
    apply Rpower_1. lra. }
  assert (Hs63 : 63 < s) by nra.
  pose proof (ln_le_raiz Re s Hs0 Hss) as HlnRe.
  pose proof (Rpower_pos Re 0.9) as Hp.
  assert (Hlnq : ln (5.74 / Rpower Re 0.9) = ln 5.74 - 0.9 * ln Re).
  { unfold Rdiv. rewrite ln_mult by (try apply Rinv_0_lt_compat; lra).
    rewrite ln_Rinv by exact Hp. rewrite ln_Rpower. lra. }
  assert (Hq0 : 0 < 5.74 / Rpower Re 0.9) by (apply Rdiv_lt_0_compat; lra).
  pose proof (ln_le_mono _ _ Hq0 Hq) as Hmono. rewrite Hlnq in Hmono.
  assert (Hneg : ln t < 0) by (rewrite <- ln_1; apply ln_increasing; lra).
  pose proof ln_574_ge_1 as H574. pose proof ln_10_ge_2 as H10.
  set (A := - ln t) in *.
  assert (HA : 0 < A <= s / 8) by (unfold A; lra).
  rewrite swamee_jain_ln by lra.
  replace (ln t * ln t) with (A * A) by (unfold A; ring).
  assert (HAA : A * A <= s / 8 * (s / 8)) by (apply quadrado_le; lra).
  assert (HAApos : 0 < A * A) by nra.
  apply div_le_l; [lra |].
  replace (0.25 * (ln 10 * ln 10) / (A * A) * Re)
    with (0.25 * (ln 10 * ln 10) * Re / (A * A)) by (field; lra).
  apply div_le_r; [exact HAApos |].
  assert (H1 : 64 * (A * A) <= Re) by nra.
  assert (H2 : 1 <= 0.25 * (ln 10 * ln 10)) by nra.
  nra.
Qed.

(** *** A very rough pipe *)

Lemma reynolds_360_125 : 329476 < reynolds_de 360 125 1.004e-6.
Proof.
  rewrite reynolds_de_eq by lra.
  pose proof PI_RGT_0 as Hpi. pose proof PI_4 as Hpi4.
  apply div_lt_r; nra.
Qed.

Lemma reynolds_360_100 : 4000 < reynolds_de 360 100 1.004e-6.
Proof.
  rewrite reynolds_de_eq by lra.
  pose proof PI_RGT_0 as Hpi. pose proof PI_4 as Hpi4.
  apply div_lt_r; nra.
Qed.

Lemma termo_log_360_100 : 1.4 < termo_log_de 360 100 518 1.004e-6.
Proof.
  rewrite termo_log_de_eq.
  pose proof (termo_de_reynolds _ reynolds_360_100) as [H0 _].
  replace (518 / 1000 / (3.7 * (100 / 1000))) with 1.4 by lra.
  lra.
Qed.

Lemma termo_log_360_125 : 1.12 < termo_log_de 360 125 518 1.004e-6 < 1.13.
Proof.
  rewrite termo_log_de_eq.
  pose proof reynolds_360_125 as Hre.
  pose proof (Rpower_09_quadrado (reynolds_de 360 125 1.004e-6) ltac:(lra))
    as Hq.
  pose proof (Rpower_pos (reynolds_de 360 125 1.004e-6) 0.9) as Hp.
  assert (H574 : 574 < Rpower (reynolds_de 360 125 1.004e-6) 0.9) by nra.
  assert (H0 : 0 < 5.74 / Rpower (reynolds_de 360 125 1.004e-6) 0.9 < 0.01).
  { split; [apply Rdiv_lt_0_compat; lra | apply div_lt_l; lra]. }
  replace (518 / 1000 / (3.7 * (125 / 1000))) with 1.12 by lra.
  lra.
Qed.

(** The two friction factors, against the square of [ln 10]. *)
Lemma fator_360_100 :
  0.25 / (ln (termo_log_de 360 100 518 1.004e-6) / ln 10) ^ 2
  <= 3.0625 * (ln 10 * ln 10).
Proof.
  pose proof termo_log_360_100 as Ht.
  set (t := termo_log_de 360 100 518 1.004e-6) in *.
  rewrite swamee_jain_ln by lra.
  pose proof (ln_ge_1_inv t ltac:(lra)) as Hln.
  assert (Hinv : / t < / 1.4) by (apply Rinv_lt_contravar; nra).
  assert (Hl : 2 / 7 < ln t).
  { lra. }
  pose proof ln_10_pos as H10.
  assert (HG : 0 < ln 10 * ln 10) by nra.
  assert (Hll : 4 / 49 < ln t * ln t) by nra.
  apply div_le_l; [lra |]. nra.
Qed.

Lemma fator_360_125 :
  14.79 * (ln 10 * ln 10)
  <= 0.25 / (ln (termo_log_de 360 125 518 1.004e-6) / ln 10) ^ 2.
Proof.
  pose proof termo_log_360_125 as Ht.
  set (t := termo_log_de 360 125 518 1.004e-6) in *.
  rewrite swamee_jain_ln by lra.
  pose proof (ln_le_sub1 t ltac:(lra)) as Hln.
  assert (Hpos : 0 < ln t) by (rewrite <- ln_1; apply ln_increasing; lra).
  pose proof ln_10_pos as H10.
  assert (HG : 0 < ln 10 * ln 10) by nra.
  assert (Hll : ln t * ln t <= 0.13 * 0.13) by (apply quadrado_le; lra).
  assert (Hll0 : 0 < ln t * ln t) by nra.
  apply div_le_r; [exact Hll0 |]. nra.
Qed.

(** C8.  The annual cost can grow with the diameter.  With 360 m³/h of
    water, a pipe of 100 m with a roughness of 518 mm and K = 5, a geometric
    head of 15 m, efficiencies 0.70 and 0.90, 8 hours a day and a tariff of
    0.75 (every one of them a value that the widgets accept, and physically
    valid in the sense of the specification), the chain returns a number at
    100 mm and at 125 mm, and the annual cost at 125 mm is strictly above
    the annual cost at 100 mm: the logarithm argument is about 1.40 at
    100 mm and about 1.12 at 125 mm, and the factor 0.25 / log10² grows
    without bound as the argument comes near 1. *)
Theorem custo_anual_cresce_com_o_diametro :
  exists c1 c2,
    custo_anual_do_diametro 360 100 518 5 agua 15 0.70 0.90 8 0.75 100
    = Ok (Fin c1) /\
    custo_anual_do_diametro 360 100 518 5 agua 15 0.70 0.90 8 0.75 125
    = Ok (Fin c2) /\
    c1 < c2.
Proof.
  pose proof termo_log_360_100 as Ht1. pose proof termo_log_360_125 as Ht2.
  pose proof fator_360_100 as Hf1. pose proof fator_360_125 as Hf2.
  pose proof ln_10_ge_2 as H10.
  set (t1 := termo_log_de 360 100 518 1.004e-6) in *.
  set (t2 := termo_log_de 360 125 518 1.004e-6) in *.
  set (f1 := 0.25 / (ln t1 / ln 10) ^ 2) in *.
  set (f2 := 0.25 / (ln t2 / ln 10) ^ 2) in *.
  assert (HF1 : fator_de_atrito (reynolds_de 360 100 1.004e-6) (518 / 1000)
                  (100 / 1000) = Ok f1).
  { rewrite fator_de_atrito_turbulento
      by (pose proof reynolds_360_100; lra).
    cbv zeta. rewrite <- termo_log_de_eq. fold t1.
    destruct (Rgt_dec t1 0) as [_ | N]; [| exfalso; lra].
    apply swamee_jain_Ok; lra. }
  assert (HF2 : fator_de_atrito (reynolds_de 360 125 1.004e-6) (518 / 1000)
                  (125 / 1000) = Ok f2).
  { rewrite fator_de_atrito_turbulento
      by (pose proof reynolds_360_125; lra).
    cbv zeta. rewrite <- termo_log_de_eq. fold t2.
    destruct (Rgt_dec t2 0) as [_ | N]; [| exfalso; lra].
    apply swamee_jain_Ok; lra. }
  eexists; eexists.
  split; [apply (custo_anual_do_diametro_eq 360 100 518 5 agua 15 0.70 0.90 8
                   0.75 100 (mk_propriedades 998.2 1.004e-6) f1);
          try exact getitem_agua; try exact HF1; simpl; lra |].
  split; [apply (custo_anual_do_diametro_eq 360 100 518 5 agua 15 0.70 0.90 8
                   0.75 125 (mk_propriedades 998.2 1.004e-6) f2);
          try exact getitem_agua; try exact HF2; simpl; lra |].
  cbv zeta. cbn [rho].
  rewrite !perda_principal_eq, !perda_localizada_eq by lra.
  pose proof PI_RGT_0 as Hpi.
  set (c := (10000 / 9 * 360 / PI) ^ 2 / (2 * 9.81)).
  assert (Hc : 0 < c).
  { unfold c. apply Rdiv_lt_0_compat; [| lra]. apply pow_lt.
    apply Rdiv_lt_0_compat; lra. }
  replace (1000 * 100 * (10000 / 9 * 360 / PI) ^ 2 / (2 * 9.81))
    with (100000 * c) by (unfold c; field; lra).
  assert (HG : 4 <= ln 10 * ln 10) by nra.
  assert (HX : f1 / 100 ^ 5 * 100000 + 5 / 100 ^ 4
               < f2 / 125 ^ 5 * 100000 + 5 / 125 ^ 4) by lra.
  assert (HH : 15 + f1 / 100 ^ 5 * (100000 * c) + 5 / 100 ^ 4 * c
               < 15 + f2 / 125 ^ 5 * (100000 * c) + 5 / 125 ^ 4 * c) by nra.
  lra.
Qed.

(** * Further properties of the code *)

(** ** [calcular_perda_carga] *)

(** The scenario of 50 m³/h of water in 100 mm by 100 m, roughness 0.15 mm,
    K = 5: a turbulent flow with a logarithm argument between 0 and 1. *)
Lemma termo_log_50_100 : 0 < termo_log_de 50 100 0.15 1.004e-6 < 1.
Proof.
  rewrite termo_log_de_eq.
  pose proof reynolds_50_100 as Hre.
  pose proof (termo_de_reynolds (reynolds_de 50 100 1.004e-6) ltac:(lra))
    as [H0 H1].
  assert (0 < 0.15 / 1000 / (3.7 * (100 / 1000)) < 0.001).
  { split; [apply Rdiv_lt_0_compat; lra | apply div_lt_l; lra]. }
  lra.
Qed.

Lemma perda_carga_50_100 :
  calcular_perda_carga 50 100 100 0.15 5 agua
  = Ok (perdas_com_fator
          (0.25 / (ln (termo_log_de 50 100 0.15 1.004e-6) / ln 10) ^ 2)
          50 100 100 5).
Proof.
  pose proof termo_log_50_100 as Ht. pose proof reynolds_50_100 as Hre.
  rewrite (perda_carga_eq 50 100 100 0.15 5 agua
             (mk_propriedades 998.2 1.004e-6) ltac:(lra) getitem_agua)
    by (simpl; lra).
  cbn [nu]. rewrite fator_de_atrito_turbulento by lra. cbv zeta.
  rewrite <- termo_log_de_eq.
  destruct (Rgt_dec (termo_log_de 50 100 0.15 1.004e-6) 0) as [_ | N];
    [| exfalso; lra].
  rewrite swamee_jain_Ok by lra. reflexivity.
Qed.

(** The factor is never negative. *)
Lemma fator_de_atrito_nao_negativo (reynolds rugosidade_m diametro_m f : R) :
  0 < diametro_m ->
  fator_de_atrito reynolds rugosidade_m diametro_m = Ok f -> 0 <= f.
Proof.
  intros Hd. destruct (Rgt_dec reynolds 4000) as [Hturb | Hlam].
  - rewrite fator_de_atrito_turbulento by assumption. cbv zeta.
    set (t := rugosidade_m / (3.7 * diametro_m) + 5.74 / Rpower reynolds 0.9).
    destruct (Rgt_dec t 0) as [Ht | _].
    + destruct (Req_dec_T t 1) as [E | N].
      * rewrite E, swamee_jain_1. discriminate.
      * rewrite swamee_jain_Ok by assumption. intros H. injection H as <-.
        left. apply swamee_jain_pos; assumption.
    + intros H. injection H as <-. lra.
  - destruct (Rgt_dec reynolds 0) as [Hpos | Hzero].
    + rewrite fator_de_atrito_laminar by lra. intros H. injection H as <-.
      left. apply Rdiv_lt_0_compat; lra.
    + rewrite fator_de_atrito_parado by lra. intros H. injection H as <-. lra.
Qed.

(** X2.  No loss is ever below zero: with a positive diameter, a fluid of
    the table, and a length and a K that are not negative, neither the major
    loss nor the minor loss of a result of [calcular_perda_carga] compares
    below 0, whatever the flow and the roughness. *)
Theorem perdas_nao_negativas
    (vazao_m3h diametro_mm comprimento_m rugosidade_mm k_total : R)
    (fluido : string) (r : perdas) :
  0 < diametro_mm -> In fluido (keys FLUIDOS) ->
  0 <= comprimento_m -> 0 <= k_total ->
  calcular_perda_carga vazao_m3h diametro_mm comprimento_m rugosidade_mm
                       k_total fluido = Ok r ->
  fltb (principal r) (Fin 0) = false /\ fltb (localizada r) (Fin 0) = false.
Proof.
  intros Hd Hin Hl Hk Hr.
  destruct (getitem_FLUIDOS fluido Hin) as (p & Hp & _ & Hnu).
  rewrite (perda_carga_eq _ _ _ _ _ _ p Hd Hp Hnu) in Hr.
  destruct (fator_de_atrito _ _ _) as [f | e] eqn:Hf; [| discriminate Hr].
  rewrite bind_Ok in Hr. injection Hr as <-.
  pose proof (fator_de_atrito_nao_negativo _ _ (diametro_mm / 1000) f
                ltac:(lra) Hf) as Hf0.
  unfold perdas_com_fator. cbn [principal localizada].
  set (v := velocidade_de vazao_m3h diametro_mm).
  assert (Hw : 0 <= v ^ 2 / (2 * 9.81)).
  { apply Rmult_le_pos; [apply pow2_ge_0 | left; apply Rinv_0_lt_compat; lra]. }
  assert (Hq : 0 <= comprimento_m / (diametro_mm / 1000)).
  { apply Rmult_le_pos; [exact Hl | left; apply Rinv_0_lt_compat; lra]. }
  assert (Hhp : 0 <= f * (comprimento_m / (diametro_mm / 1000))
                     * (v ^ 2 / (2 * 9.81)))
    by (apply Rmult_le_pos; [apply Rmult_le_pos |]; assumption).
  assert (Hhl : 0 <= k_total * (v ^ 2 / (2 * 9.81)))
    by (apply Rmult_le_pos; assumption).
  unfold fltb, fgtb. split.
  - destruct (Rgt_dec 0 _) as [H | _]; [exfalso; lra | reflexivity].
  - destruct (Rgt_dec 0 _) as [H | _]; [exfalso; lra | reflexivity].
Qed.

Lemma perdas_nao_negativas_witness :
  fltb (principal
          (perdas_com_fator
             (0.25 / (ln (termo_log_de 50 100 0.15 1.004e-6) / ln 10) ^ 2)
             50 100 100 5)) (Fin 0) = false /\
  fltb (localizada
          (perdas_com_fator
             (0.25 / (ln (termo_log_de 50 100 0.15 1.004e-6) / ln 10) ^ 2)
             50 100 100 5)) (Fin 0) = false.
Proof.
  apply (perdas_nao_negativas 50 100 100 0.15 5 agua).
  - lra.
  - simpl. left. reflexivity.
  - lra.
  - lra.
  - exact perda_carga_50_100.
Defined.

(** X3.  When the Reynolds number is at most 4000 the roughness has no
    effect: for a positive diameter and a fluid of the table,
    [calcular_perda_carga] gives the same result for any two roughness
    values. *)
Theorem rugosidade_sem_efeito_ate_4000
    (vazao_m3h diametro_mm comprimento_m k_total rugosidade_1 rugosidade_2 : R)
    (fluido : string) (p : propriedades) :
  0 < diametro_mm -> getitem FLUIDOS fluido = Ok p -> 0 < nu p ->
  reynolds_de vazao_m3h diametro_mm (nu p) <= 4000 ->
  calcular_perda_carga vazao_m3h diametro_mm comprimento_m rugosidade_1
                       k_total fluido
  = calcular_perda_carga vazao_m3h diametro_mm comprimento_m rugosidade_2
                         k_total fluido.
Proof.
  intros Hd Hp Hnu Hre.
  rewrite !(perda_carga_eq _ _ _ _ _ _ p Hd Hp Hnu).
  destruct (Rgt_dec (reynolds_de vazao_m3h diametro_mm (nu p)) 0)
    as [Hpos | Hzero].
  - rewrite !fator_de_atrito_laminar by lra. reflexivity.
  - rewrite !fator_de_atrito_parado by lra. reflexivity.
Qed.

Lemma reynolds_1_100_glicerina : 0 < reynolds_de 1 100 1.49e-3 <= 4000.
Proof.
  rewrite reynolds_de_eq by lra.
  pose proof PI_RGT_0 as Hpi. pose proof PI_entre as [Hlo Hhi].
  split.
  - apply Rdiv_lt_0_compat; nra.
  - apply div_le_l; nra.
Qed.

Lemma rugosidade_sem_efeito_ate_4000_witness :
  calcular_perda_carga 1 100 100 0.15 5 glicerina
  = calcular_perda_carga 1 100 100 50 5 glicerina.
Proof.
  apply (rugosidade_sem_efeito_ate_4000 1 100 100 5 0.15 50 glicerina
           (mk_propriedades 1261.0 1.49e-3)).
  - lra.
  - reflexivity.
  - simpl; lra.
  - simpl. pose proof reynolds_1_100_glicerina. lra.
Defined.

(** The Swamee-Jain value grows with its argument below 1. *)
Lemma swamee_jain_crescente (t1 t2 : R) :
  0 < t1 -> t1 <= t2 -> t2 < 1 ->
  0.25 / (ln t1 / ln 10) ^ 2 <= 0.25 / (ln t2 / ln 10) ^ 2.
Proof.
  intros H1 H12 H2.
  rewrite !swamee_jain_ln by lra.
  pose proof (ln_le_mono t1 t2 H1 H12) as Hmono.
  assert (Hneg : ln t2 < 0) by (rewrite <- ln_1; apply ln_increasing; lra).
  pose proof ln_10_pos as H10.
  assert (Ha : 0 < 0.25 * (ln 10 * ln 10)) by nra.
  assert (Hsq2 : 0 < ln t2 * ln t2) by nra.
  assert (Hsq1 : 0 < ln t1 * ln t1) by nra.
  assert (Hsq : ln t2 * ln t2 <= ln t1 * ln t1) by nra.
  apply div_le_l; [exact Hsq1 |].
  replace (0.25 * (ln 10 * ln 10) / (ln t2 * ln t2) * (ln t1 * ln t1))
    with (0.25 * (ln 10 * ln 10) * (ln t1 * ln t1) / (ln t2 * ln t2))
    by (field; lra).
  apply div_le_r; [exact Hsq2 |].
  apply Rmult_le_compat_l; lra.
Qed.

(** X4.  In the turbulent regime a rougher pipe never loses less: for a
    positive diameter, a fluid of the table, a length that is not negative
    and two roughness values 0 <= r1 <= r2 whose logarithm argument stays
    below 1, [calcular_perda_carga] returns for both, with the same velocity
    and minor loss, and the major loss for r1 is at most the one for r2. *)
Theorem perda_principal_cresce_com_rugosidade
    (vazao_m3h diametro_mm comprimento_m k_total rugosidade_1 rugosidade_2 : R)
    (fluido : string) (p : propriedades) :
  0 < diametro_mm -> getitem FLUIDOS fluido = Ok p -> 0 < nu p ->
  0 <= comprimento_m ->
  reynolds_de vazao_m3h diametro_mm (nu p) > 4000 ->
  0 <= rugosidade_1 <= rugosidade_2 ->
  termo_log_de vazao_m3h diametro_mm rugosidade_2 (nu p) < 1 ->
  exists hp1 hp2 hl v,
    calcular_perda_carga vazao_m3h diametro_mm comprimento_m rugosidade_1
                         k_total fluido
    = Ok (mk_perdas (Fin hp1) (Fin hl) (Fin v)) /\
    calcular_perda_carga vazao_m3h diametro_mm comprimento_m rugosidade_2
                         k_total fluido
    = Ok (mk_perdas (Fin hp2) (Fin hl) (Fin v)) /\
    hp1 <= hp2.
Proof.
  intros Hd Hp Hnu Hl Hre [Hr1 Hr12] Ht2.
  pose proof (termo_de_reynolds _ Hre) as [Hq0 _].
  set (t1 := termo_log_de vazao_m3h diametro_mm rugosidade_1 (nu p)).
  set (t2 := termo_log_de vazao_m3h diametro_mm rugosidade_2 (nu p)) in *.
  assert (Ha1 : 0 <= rugosidade_1 / 1000 / (3.7 * (diametro_mm / 1000)))
    by (apply div_le_r; lra).
  assert (Ha12 : rugosidade_1 / 1000 / (3.7 * (diametro_mm / 1000))
                 <= rugosidade_2 / 1000 / (3.7 * (diametro_mm / 1000))).
  { apply div_le_l; [lra |].
    replace (rugosidade_2 / 1000 / (3.7 * (diametro_mm / 1000))
             * (3.7 * (diametro_mm / 1000)))
      with (rugosidade_2 / 1000) by (field; lra).
    lra. }
  assert (Ht : 0 < t1 /\ t1 <= t2).
  { unfold t1, t2. rewrite !termo_log_de_eq. lra. }
  destruct Ht as [Ht1 Ht12].
  assert (Hf : forall r t,
             t = termo_log_de vazao_m3h diametro_mm r (nu p) ->
             0 < t < 1 ->
             calcular_perda_carga vazao_m3h diametro_mm comprimento_m r
                                  k_total fluido
             = Ok (perdas_com_fator (0.25 / (ln t / ln 10) ^ 2) vazao_m3h
                     diametro_mm comprimento_m k_total)).
  { intros r t Et Hrange.
    rewrite (perda_carga_eq _ _ _ _ _ _ p Hd Hp Hnu).
    rewrite fator_de_atrito_turbulento by lra. cbv zeta.
    rewrite <- termo_log_de_eq, <- Et.
    destruct (Rgt_dec t 0) as [_ | N]; [| exfalso; lra].
    rewrite swamee_jain_Ok by lra. reflexivity. }
  eexists; eexists; eexists; eexists.
  split; [apply (Hf rugosidade_1 t1 eq_refl); lra |].
  split; [apply (Hf rugosidade_2 t2 eq_refl); lra |].
  pose proof (swamee_jain_crescente t1 t2 Ht1 Ht12 Ht2) as Hsj.
  set (v := velocidade_de vazao_m3h diametro_mm).
  assert (Hw : 0 <= v ^ 2 / (2 * 9.81)).
  { apply Rmult_le_pos; [apply pow2_ge_0 | left; apply Rinv_0_lt_compat; lra]. }
  assert (Hq : 0 <= comprimento_m / (diametro_mm / 1000)).
  { apply Rmult_le_pos; [exact Hl | left; apply Rinv_0_lt_compat; lra]. }
  apply Rmult_le_compat_r; [exact Hw |].
  apply Rmult_le_compat_r; [exact Hq | exact Hsj].
Qed.

Lemma termo_log_50_100_rugoso : termo_log_de 50 100 1.5 1.004e-6 < 1.
Proof.
  rewrite termo_log_de_eq.
  pose proof reynolds_50_100 as Hre.
  pose proof (termo_de_reynolds (reynolds_de 50 100 1.004e-6) ltac:(lra))
    as [H0 H1].
  assert (1.5 / 1000 / (3.7 * (100 / 1000)) < 0.01) by (apply div_lt_l; lra).
  lra.
Qed.

Lemma perda_principal_cresce_com_rugosidade_witness :
  exists hp1 hp2 hl v,
    calcular_perda_carga 50 100 100 0.15 5 agua
    = Ok (mk_perdas (Fin hp1) (Fin hl) (Fin v)) /\
    calcular_perda_carga 50 100 100 1.5 5 agua
    = Ok (mk_perdas (Fin hp2) (Fin hl) (Fin v)) /\
    hp1 <= hp2.
Proof.
  apply (perda_principal_cresce_com_rugosidade 50 100 100 5 0.15 1.5 agua
           (mk_propriedades 998.2 1.004e-6)).
  - lra.
  - reflexivity.
  - simpl; lra.
  - lra.
  - simpl. pose proof reynolds_50_100. lra.
  - lra.
  - exact termo_log_50_100_rugoso.
Defined.

(** X18.  The factor jumps up, never down, where the regime changes: for a
    positive diameter, a fluid of the table, a roughness and a length that
    are not negative, and a turbulent flow whose logarithm argument is below
    1, [calcular_perda_carga] returns a major loss that is at least the one
    that the laminar formula 64/Re would give for the same flow. *)
Theorem perda_turbulenta_acima_da_laminar
    (vazao_m3h diametro_mm comprimento_m rugosidade_mm k_total : R)
    (fluido : string) (p : propriedades) :
  0 < diametro_mm -> getitem FLUIDOS fluido = Ok p -> 0 < nu p ->
  0 <= comprimento_m -> 0 <= rugosidade_mm ->
  reynolds_de vazao_m3h diametro_mm (nu p) > 4000 ->
  termo_log_de vazao_m3h diametro_mm rugosidade_mm (nu p) < 1 ->
  exists hp hl v,
    calcular_perda_carga vazao_m3h diametro_mm comprimento_m rugosidade_mm
                         k_total fluido
    = Ok (mk_perdas (Fin hp) (Fin hl) (Fin v)) /\
    64 / reynolds_de vazao_m3h diametro_mm (nu p)
    * (comprimento_m / (diametro_mm / 1000)) * (v ^ 2 / (2 * 9.81))
    <= hp.
Proof.
  intros Hd Hp Hnu Hl Hr Hre Ht1.
  pose proof (termo_de_reynolds _ Hre) as [Hq0 _].
  set (t := termo_log_de vazao_m3h diametro_mm rugosidade_mm (nu p)) in *.
  assert (Ha : 0 <= rugosidade_mm / 1000 / (3.7 * (diametro_mm / 1000)))
    by (apply div_le_r; lra).
  assert (Hqt : 5.74 / Rpower (reynolds_de vazao_m3h diametro_mm (nu p)) 0.9
                <= t)
    by (unfold t; rewrite termo_log_de_eq; lra).
  assert (Ht0 : 0 < t) by lra.
  pose proof (laminar_abaixo_do_turbulento
                (reynolds_de vazao_m3h diametro_mm (nu p)) t ltac:(lra)
                (conj Ht0 Ht1) Hqt)
    as Hcmp.
  rewrite (perda_carga_eq _ _ _ _ _ _ p Hd Hp Hnu).
  rewrite fator_de_atrito_turbulento by lra. cbv zeta.
  rewrite <- termo_log_de_eq. fold t.
  destruct (Rgt_dec t 0) as [_ | N]; [| exfalso; lra].
  rewrite swamee_jain_Ok, bind_Ok by lra.
  unfold perdas_com_fator.
  set (v := velocidade_de vazao_m3h diametro_mm).
  do 3 eexists. split; [reflexivity |].
  assert (Hw : 0 <= v ^ 2 / (2 * 9.81)).
  { apply Rmult_le_pos; [apply pow2_ge_0 | left; apply Rinv_0_lt_compat; lra]. }
  assert (Hq : 0 <= comprimento_m / (diametro_mm / 1000)).
  { apply Rmult_le_pos; [exact Hl | left; apply Rinv_0_lt_compat; lra]. }
  apply Rmult_le_compat_r; [exact Hw |].
  apply Rmult_le_compat_r; [exact Hq | exact Hcmp].
Qed.

Lemma perda_turbulenta_acima_da_laminar_witness :
  exists hp hl v,
    calcular_perda_carga 50 100 100 0.15 5 agua
    = Ok (mk_perdas (Fin hp) (Fin hl) (Fin v)) /\
    64 / reynolds_de 50 100 1.004e-6 * (100 / (100 / 1000))
    * (v ^ 2 / (2 * 9.81)) <= hp.
Proof.
  apply (perda_turbulenta_acima_da_laminar 50 100 100 0.15 5 agua
           (mk_propriedades 998.2 1.004e-6)).
  - lra.
  - reflexivity.
  - simpl; lra.
  - lra.
  - lra.
  - simpl. pose proof reynolds_50_100. lra.
  - simpl. pose proof termo_log_50_100. lra.
Defined.

(** ** [calcular_analise_energetica] *)



(** ** The chain and the sentinel *)

Lemma signed_inf_pos (x : R) : 0 < x -> signed_inf x = PInf.
Proof. intros Hx. unfold signed_inf. decidir. reflexivity. Qed.

(** X9.  The sentinel of an invalid diameter goes through the whole chain:
    for a diameter that is zero or negative, a fluid of the table and a
    positive flow, efficiencies, hours and tariff, the analysis returns
    without raising, the three fields of the losses and the four fields of
    the energy analysis are plus infinity, and [gerar_sugestoes] on that
    result gives the high-velocity warning and the advisory of the annual
    cost. *)
Theorem analise_da_tubulacao_diametro_invalido
    (vazao_m3h diametro_mm comprimento_m rugosidade_mm k_total : R)
    (fluido : string)
    (h_geometrica eficiencia_bomba eficiencia_motor horas_dia custo_kwh : R) :
  diametro_mm <= 0 -> In fluido (keys FLUIDOS) ->
  0 < vazao_m3h -> 0 < eficiencia_bomba -> 0 < eficiencia_motor ->
  0 < horas_dia -> 0 < custo_kwh ->
  analise_da_tubulacao vazao_m3h diametro_mm comprimento_m rugosidade_mm
    k_total fluido h_geometrica eficiencia_bomba eficiencia_motor horas_dia
    custo_kwh
  = Ok (mk_perdas PInf PInf PInf, mk_energia PInf PInf PInf PInf) /\
  In (VelocidadeAlta PInf)
     (gerar_sugestoes eficiencia_bomba eficiencia_motor PInf PInf) /\
  In InversorDeFrequencia
     (gerar_sugestoes eficiencia_bomba eficiencia_motor PInf PInf).
Proof.
  intros Hd Hin Hq Hb Hm Hh Hc.
  destruct (getitem_FLUIDOS fluido Hin) as (p & Hp & Hrho & _).
  split.
  - unfold analise_da_tubulacao, calcular_perda_carga.
    destruct (Rle_dec diametro_mm 0) as [_ | N]; [| contradiction].
    rewrite bind_Ok. cbn [principal localizada inf fadd].
    unfold calcular_analise_energetica. rewrite Hp, bind_Ok.
    assert (Hk : 0 < vazao_m3h / 3600 * rho p * 9.81) by nra.
    destruct (Rgt_dec eficiencia_bomba 0) as [_ | N]; [| exfalso; lra].
    destruct (Rgt_dec eficiencia_motor 0) as [_ | N]; [| exfalso; lra].
    cbn [fmul]. rewrite (signed_inf_pos _ Hk).
    unfold fdiv.
    destruct (Req_dec_T eficiencia_bomba 0) as [E | _]; [exfalso; lra |].
    rewrite bind_Ok, (signed_inf_pos _ Hb).
    destruct (Req_dec_T eficiencia_motor 0) as [E | _]; [exfalso; lra |].
    rewrite bind_Ok, (signed_inf_pos _ Hm).
    destruct (Req_dec_T 1000 0) as [E | _]; [exfalso; lra |].
    rewrite (signed_inf_pos 1000) by lra.
    rewrite bind_Ok.
    repeat (cbn [fmul]; rewrite signed_inf_pos by lra).
    reflexivity.
  - rewrite !em_sugestoes. split.
    + left. split; reflexivity.
    + right. right. right. right. left. split; reflexivity.
Qed.

Lemma analise_da_tubulacao_diametro_invalido_witness :
  analise_da_tubulacao 50 0 100 0.15 5 agua 15 0.70 0.90 8 0.75
  = Ok (mk_perdas PInf PInf PInf, mk_energia PInf PInf PInf PInf) /\
  In (VelocidadeAlta PInf) (gerar_sugestoes 0.70 0.90 PInf PInf) /\
  In InversorDeFrequencia (gerar_sugestoes 0.70 0.90 PInf PInf).
Proof.
  apply (analise_da_tubulacao_diametro_invalido 50 0 100 0.15 5 agua 15 0.70
           0.90 8 0.75); try lra.
  simpl. left. reflexivity.
Defined.

(** X10.  With a positive diameter, losses never lower the bill: for
    physically valid inputs (fluid of the table, positive flow, efficiencies,
    hours and tariff, length and K that are not negative), when the analysis
    of the pipe returns, its annual cost does not compare below the annual
    cost that [calcular_analise_energetica] gives for the geometric head
    alone. *)
Theorem perdas_encarecem
    (vazao_m3h diametro_mm comprimento_m rugosidade_mm k_total : R)
    (fluido : string)
    (h_geometrica eficiencia_bomba eficiencia_motor horas_dia custo_kwh : R)
    (r : perdas) (e : energia) :
  0 < diametro_mm -> In fluido (keys FLUIDOS) ->
  0 < vazao_m3h -> 0 <= comprimento_m -> 0 <= k_total ->
  0 < eficiencia_bomba -> 0 < eficiencia_motor ->
  0 < horas_dia -> 0 < custo_kwh ->
  analise_da_tubulacao vazao_m3h diametro_mm comprimento_m rugosidade_mm
    k_total fluido h_geometrica eficiencia_bomba eficiencia_motor horas_dia
    custo_kwh = Ok (r, e) ->
  exists e0,
    calcular_analise_energetica vazao_m3h (Fin h_geometrica) eficiencia_bomba
      eficiencia_motor horas_dia custo_kwh fluido = Ok e0 /\
    fltb (custo_anual e) (custo_anual e0) = false.
Proof.
  intros Hd Hin Hq Hl Hk Hb Hm Hh Hc Hr.
  destruct (getitem_FLUIDOS fluido Hin) as (p & Hp & Hrho & Hnu).
  unfold analise_da_tubulacao in Hr.
  rewrite (perda_carga_eq _ _ _ _ _ _ p Hd Hp Hnu) in Hr.
  destruct (fator_de_atrito _ _ _) as [f | x] eqn:Hf; [| discriminate Hr].
  pose proof (fator_de_atrito_nao_negativo _ _ (diametro_mm / 1000) f
                ltac:(lra) Hf) as Hf0.
  rewrite !bind_Ok in Hr. unfold perdas_com_fator in Hr.
  cbn [principal localizada fadd] in Hr.
  set (v := velocidade_de vazao_m3h diametro_mm) in *.
  set (hp := f * (comprimento_m / (diametro_mm / 1000)) * (v ^ 2 / (2 * 9.81)))
    in *.
  set (hl := k_total * (v ^ 2 / (2 * 9.81))) in *.
  rewrite (analise_energetica_finita _ (h_geometrica + hp + hl) _ _ _ _ _ p
             Hp Hb Hm), bind_Ok in Hr.
  injection Hr as _ <-.
  assert (Hw : 0 <= v ^ 2 / (2 * 9.81)).
  { apply Rmult_le_pos; [apply pow2_ge_0 | left; apply Rinv_0_lt_compat; lra]. }
  assert (Hrz : 0 <= comprimento_m / (diametro_mm / 1000)).
  { apply Rmult_le_pos; [exact Hl | left; apply Rinv_0_lt_compat; lra]. }
  assert (Hhp : 0 <= hp)
    by (apply Rmult_le_pos; [apply Rmult_le_pos |]; assumption).
  assert (Hhl : 0 <= hl) by (apply Rmult_le_pos; assumption).
  eexists.
  split; [apply (analise_energetica_finita _ h_geometrica _ _ _ _ _ p Hp Hb Hm)
         |].
  cbn [custo_anual]. unfold fltb, fgtb.
  pose proof (custo_monotono_na_altura vazao_m3h (rho p) eficiencia_bomba
                eficiencia_motor horas_dia custo_kwh
                (h_geometrica + hp + hl) h_geometrica
                Hq Hrho Hb Hm Hh Hc ltac:(lra)) as Hle.
  destruct (Rgt_dec _ _) as [H | _]; [exfalso; lra | reflexivity].
Qed.

Lemma analise_da_tubulacao_50_100 :
  exists r e,
    analise_da_tubulacao 50 100 100 0.15 5 agua 15 0.70 0.90 8 0.75
    = Ok (r, e).
Proof.
  unfold analise_da_tubulacao. rewrite perda_carga_50_100, bind_Ok.
  unfold perdas_com_fator. cbn [principal localizada fadd].
  rewrite (analise_energetica_finita 50 _ 0.70 0.90 8 0.75 agua _ getitem_agua)
    by lra.
  rewrite bind_Ok. eexists; eexists; reflexivity.
Qed.

Lemma perdas_encarecem_witness :
  exists r e e0,
    analise_da_tubulacao 50 100 100 0.15 5 agua 15 0.70 0.90 8 0.75
    = Ok (r, e) /\
    calcular_analise_energetica 50 (Fin 15) 0.70 0.90 8 0.75 agua = Ok e0 /\
    fltb (custo_anual e) (custo_anual e0) = false.
Proof.
  destruct analise_da_tubulacao_50_100 as (r & e & Hre).
  destruct (perdas_encarecem 50 100 100 0.15 5 agua 15 0.70 0.90 8 0.75 r e)
    as (e0 & H); try lra.
  - simpl. left. reflexivity.
  - exact Hre.
  - exists r, e, e0. split; [exact Hre | exact H].
Defined.

(** ** [gerar_sugestoes] and its texts *)

(** X11.  The list of [gerar_sugestoes] is never empty, never longer than
    five, and never holds the same message twice. *)
Theorem gerar_sugestoes_tamanho
    (eficiencia_bomba eficiencia_motor : R) (custo_anual velocidade : pyfloat) :
  let s := gerar_sugestoes eficiencia_bomba eficiencia_motor custo_anual
                           velocidade in
  (1 <= length s <= 5)%nat /\ NoDup s.
Proof.
  cbv zeta. rewrite gerar_sugestoes_eq.
  destruct (fgtb velocidade (Fin 3.0));
    [| destruct (fltb velocidade (Fin 0.5))];
    destruct (Rlt_dec eficiencia_bomba 0.6);
    destruct (Rlt_dec eficiencia_motor 0.85);
    destruct (fgtb custo_anual (Fin 5000));
    cbn [app length];
    (split; [lia |]);
    repeat (constructor; [cbn [In]; intuition discriminate |]);
    constructor.
Qed.

(** X12.  [gerar_sugestoes] gives the maintenance advisory alone exactly
    when no test fires: the velocity is neither above 3.0 nor below 0.5 (a
    nan is neither), the pump efficiency is at least 0.6, the motor
    efficiency at least 0.85, and the annual cost is not above 5000.  The
    four limits themselves fire nothing. *)
Theorem gerar_sugestoes_so_manutencao
    (eficiencia_bomba eficiencia_motor : R) (custo_anual velocidade : pyfloat) :
  (gerar_sugestoes eficiencia_bomba eficiencia_motor custo_anual velocidade
   = [ManutencaoPreventiva]
   <-> fgtb velocidade (Fin 3.0) = false /\
       fltb velocidade (Fin 0.5) = false /\
       0.6 <= eficiencia_bomba /\ 0.85 <= eficiencia_motor /\
       fgtb custo_anual (Fin 5000) = false) /\
  gerar_sugestoes 0.6 0.85 (Fin 5000) (Fin 3.0) = [ManutencaoPreventiva] /\
  gerar_sugestoes 0.6 0.85 (Fin 5000) (Fin 0.5) = [ManutencaoPreventiva] /\
  gerar_sugestoes 0.6 0.85 NaN NaN = [ManutencaoPreventiva].
Proof.
  assert (Hiff : forall eb em c v,
             gerar_sugestoes eb em c v = [ManutencaoPreventiva]
             <-> fgtb v (Fin 3.0) = false /\ fltb v (Fin 0.5) = false /\
                 0.6 <= eb /\ 0.85 <= em /\ fgtb c (Fin 5000) = false).
  { intros eb em c v. rewrite gerar_sugestoes_eq.
    destruct (fgtb v (Fin 3.0)); [| destruct (fltb v (Fin 0.5))];
      destruct (Rlt_dec eb 0.6); destruct (Rlt_dec em 0.85);
      destruct (fgtb c (Fin 5000)); cbn [app];
      (split; [intros H; try discriminate H; repeat split; try reflexivity; lra
              | intros (H1 & H2 & H3 & H4 & H5);
                try discriminate; try reflexivity; exfalso; lra]). }
  split; [apply Hiff |].
  assert (Hgt : forall x y, x <= y -> fgtb (Fin x) (Fin y) = false).
  { intros x y Hxy. simpl. destruct (Rgt_dec x y); [exfalso; lra | reflexivity]. }
  split; [| split]; apply Hiff; unfold fltb;
    repeat split; try lra; try reflexivity; apply Hgt; lra.
Qed.

Lemma gerar_sugestoes_so_manutencao_witness :
  gerar_sugestoes 0.70 0.90 (Fin 1200) (Fin 1.77) = [ManutencaoPreventiva].
Proof.
  apply (proj2 (proj1 (gerar_sugestoes_so_manutencao 0.70 0.90 (Fin 1200)
                         (Fin 1.77)))).
  unfold fltb. simpl.
  destruct (Rgt_dec 1.77 3.0); [exfalso; lra |].
  destruct (Rgt_dec 0.5 1.77); [exfalso; lra |].
  destruct (Rgt_dec 1200 5000); [exfalso; lra |].
  repeat split; try reflexivity; lra.
Defined.

(** The texts of two messages are equal only when the messages are of the
    same kind: the six texts start differently. *)
Lemma texto_mesmo_tipo (formato_2f : pyfloat -> string) (a b : sugestao) :
  texto formato_2f a = texto formato_2f b ->
  match a, b with
  | VelocidadeAlta _, VelocidadeAlta _
  | VelocidadeBaixa _, VelocidadeBaixa _
  | BombaIneficiente, BombaIneficiente
  | MotorIneficiente, MotorIneficiente
  | InversorDeFrequencia, InversorDeFrequencia
  | ManutencaoPreventiva, ManutencaoPreventiva => True
  | _, _ => False
  end.
Proof.
  destruct a, b; cbn [texto append]; intros H; try exact I;
    repeat match type of H with
           | String ?c _ = String ?c _ => injection H as H
           end;
    discriminate H.
Qed.

(** X13.  The texts that [gerar_sugestoes_texto] returns tell the messages
    apart, whatever the format of the velocity: the list has as many texts
    as [gerar_sugestoes] has messages, its last text is the one of the
    maintenance advisory, the text of the pump advisory is in it exactly
    when the pump efficiency is below 0.6, and it holds a text of the
    high-velocity warning exactly when the velocity is above 3.0. *)
Theorem gerar_sugestoes_texto_regras
    (formato_2f : pyfloat -> string)
    (eficiencia_bomba eficiencia_motor : R) (custo_anual velocidade : pyfloat) :
  let s := gerar_sugestoes_texto formato_2f eficiencia_bomba eficiencia_motor
             custo_anual velocidade in
  length s = length (gerar_sugestoes eficiencia_bomba eficiencia_motor
                       custo_anual velocidade) /\
  last s EmptyString = texto formato_2f ManutencaoPreventiva /\
  (In (texto formato_2f BombaIneficiente) s <-> eficiencia_bomba < 0.6) /\
  ((exists v, In (texto formato_2f (VelocidadeAlta v)) s)
   <-> fgtb velocidade (Fin 3.0) = true).
Proof.
  cbv zeta. unfold gerar_sugestoes_texto.
  split; [apply length_map |].
  split.
  { rewrite gerar_sugestoes_eq, !app_assoc, map_app. cbn [map].
    apply last_last. }
  split.
  - rewrite in_map_iff. split.
    + intros (m & Hm & Hin). apply texto_mesmo_tipo in Hm.
      destruct m; try contradiction.
      apply em_sugestoes in Hin. intuition congruence.
    + intros Hb. exists BombaIneficiente. split; [reflexivity |].
      apply em_sugestoes. right. right. left. split; [reflexivity | exact Hb].
  - split.
    + intros (v & Hin). apply in_map_iff in Hin.
      destruct Hin as (m & Hm & Hin). apply texto_mesmo_tipo in Hm.
      destruct m; try contradiction.
      apply em_sugestoes in Hin. intuition congruence.
    + intros Hv. exists velocidade. apply in_map.
      apply em_sugestoes. left. split; [reflexivity | exact Hv].
Qed.

Lemma gerar_sugestoes_texto_regras_witness :
  In (texto (fun _ => "1.77"%string) BombaIneficiente)
     (gerar_sugestoes_texto (fun _ => "1.77"%string) 0.5 0.9 (Fin 1200)
        (Fin 1.77)).
Proof.
  pose proof (gerar_sugestoes_texto_regras (fun _ => "1.77"%string) 0.5 0.9
                (Fin 1200) (Fin 1.77)) as H.
  cbv zeta in H. destruct H as (_ & _ & Hb & _).
  apply (proj2 Hb). lra.
Defined.

(** ** [gerar_grafico_diametro_custo] and the script *)

(** X14.  For a positive base diameter every sample diameter of the chart
    lies between the two ends of the range, 2 base and max(25, 0.5 base), so
    it is positive and the sentinel of [calcular_perda_carga] is never
    asked for; for a base diameter of at least 12.5 every sample is at least
    25 and at most 2 base. *)
Theorem diametros_mm_positivos (diametro_base_mm : R) :
  0 < diametro_base_mm ->
  Forall (fun d => Rmin 25 (2 * diametro_base_mm) <= d
                   <= Rmax 25 (2 * diametro_base_mm) /\ 0 < d)
         (diametros_mm diametro_base_mm) /\
  (12.5 <= diametro_base_mm ->
   Forall (fun d => 25 <= d <= 2 * diametro_base_mm)
          (diametros_mm diametro_base_mm)).
Proof.
  intros Hb.
  set (start := py_max 25 (diametro_base_mm * 0.5)).
  set (stop := diametro_base_mm * 2).
  assert (Hstart : 25 <= start /\ start <= Rmax 25 (2 * diametro_base_mm)).
  { unfold start. rewrite py_max_eq. unfold Rmax.
    destruct (Rle_dec 25 (diametro_base_mm * 0.5));
      destruct (Rle_dec 25 (2 * diametro_base_mm)); lra. }
  assert (Hstop : Rmin 25 (2 * diametro_base_mm) <= stop
                  /\ stop <= Rmax 25 (2 * diametro_base_mm)).
  { unfold stop, Rmin, Rmax.
    destruct (Rle_dec 25 (2 * diametro_base_mm)); lra. }
  assert (Hmin : 0 < Rmin 25 (2 * diametro_base_mm)
                 /\ Rmin 25 (2 * diametro_base_mm) <= 25).
  { unfold Rmin. destruct (Rle_dec 25 (2 * diametro_base_mm)); lra. }
  assert (Hentre : forall i : nat,
             (i < 19)%nat ->
             let d := INR i * ((stop - start) / 19) + start in
             (start <= d <= stop \/ stop <= d <= start)).
  { intros i Hi d.
    assert (Hi0 : 0 <= INR i) by apply pos_INR.
    assert (Hi19 : INR i <= 19).
    { replace 19 with (INR 19) by (simpl; lra). apply le_INR. lia. }
    assert (Hd : d = start + INR i / 19 * (stop - start))
      by (unfold d; field).
    assert (Hfrac : 0 <= INR i / 19 <= 1).
    { split; [apply div_le_r; lra | apply div_le_l; lra]. }
    destruct (Rle_dec start stop) as [Hle | Hgt]; [left | right];
      rewrite Hd; nra. }
  assert (Hall : forall d, In d (diametros_mm diametro_base_mm) ->
                 start <= d <= stop \/ stop <= d <= start).
  { intros d Hin. rewrite diametros_mm_eq in Hin. cbv zeta in Hin.
    fold start stop in Hin. apply in_app_or in Hin.
    destruct Hin as [Hin | [<- | []]].
    - apply in_map_iff in Hin. destruct Hin as (i & <- & Hi).
      apply in_seq in Hi. apply Hentre. lia.
    - destruct (Rle_dec start stop); [left | right]; lra. }
  split.
  - apply Forall_forall. intros d Hin. destruct (Hall d Hin); lra.
  - intros H125. apply Forall_forall. intros d Hin.
    assert (start <= stop).
    { unfold start, stop. rewrite py_max_eq. unfold Rmax.
      destruct (Rle_dec 25 (diametro_base_mm * 0.5)); lra. }
    destruct (Hall d Hin); unfold stop in *; lra.
Qed.

Lemma diametros_mm_positivos_witness :
  Forall (fun d => 25 <= d <= 2 * 100) (diametros_mm 100).
Proof.
  apply (proj2 (diametros_mm_positivos 100 ltac:(lra))). lra.
Defined.

(** X16.  Under "Calcular a partir da tubulação" the script never reaches
    the report: every run raises before it, at the call of the chart when
    not earlier.  So whenever the script reaches the report the head was
    typed in, and the report gets no velocity, no chart and an empty list of
    suggestions. *)
Theorem script_calcular_pela_tubulacao (e : entradas) :
  (tipo_calculo_h e = CalcularPelaTubulacao -> exists x, script e = Raise x) /\
  (forall s, script e = Ok s ->
     tipo_calculo_h e = InformarManualmente /\
     velocidade_fluido s = None /\ chart_data s = None /\
     sugestoes_do_relatorio s = []).
Proof.
  assert (Hpipe : tipo_calculo_h e = CalcularPelaTubulacao ->
                  exists x, script e = Raise x).
  { intros Ht. unfold script. rewrite Ht.
    destruct (calcular_perda_carga (vazao e) (diam_tub e) (comp_tub e)
                (rug_tub e) (k_total_acessorios e) (fluido_selecionado e))
      as [r | x] eqn:Hr.
    - rewrite bind_Ok.
      destruct (calcular_analise_energetica _ _ _ _ _ _ _) as [en | x] eqn:He.
      + rewrite bind_Ok, gerar_grafico_TypeError. cbn [bind].
        eexists; reflexivity.
      + cbn [bind]. eexists; reflexivity.
    - cbn [bind]. eexists; reflexivity. }
  split; [exact Hpipe |].
  intros s Hs.
  destruct (tipo_calculo_h e) eqn:Ht.
  - split; [reflexivity |].
    unfold script in Hs. rewrite Ht in Hs.
    destruct (calcular_analise_energetica _ _ _ _ _ _ _) as [en | x];
      [| discriminate Hs].
    rewrite bind_Ok in Hs. injection Hs as <-. repeat split; reflexivity.
  - destruct (Hpipe eq_refl) as [x Hx]. rewrite Hx in Hs.
    discriminate Hs.
Qed.

(** The values that the script has by default under "Calcular a partir da
    tubulação". *)
Lemma script_calcular_pela_tubulacao_witness :
  exists x,
    script (mk_entradas agua 50 CalcularPelaTubulacao 30 15 100 100 0.15 5 70
              90 8 0.75) = Raise x.
Proof.
  apply (proj1 (script_calcular_pela_tubulacao
                  (mk_entradas agua 50 CalcularPelaTubulacao 30 15 100 100
                     0.15 5 70 90 8 0.75))).
  reflexivity.
Defined.

(** X17.  Under "Informar manualmente", with the values that the widgets
    allow, the script reaches the report without raising: the head is the
    one typed in, the electrical power, the monthly consumption and the
    monthly and annual costs all compare above 0, and the report is built
    without velocity, chart or suggestions. *)
Theorem script_informar_manualmente (e : entradas) :
  entradas_validas e -> tipo_calculo_h e = InformarManualmente ->
  exists en,
    script e
    = Ok (mk_estado_final (Fin (h_man_informada e)) None en None []) /\
    fgtb (potencia_eletrica_kW en) (Fin 0) = true /\
    fgtb (consumo_mensal_kWh en) (Fin 0) = true /\
    fgtb (custo_mensal en) (Fin 0) = true /\
    fgtb (custo_anual en) (Fin 0) = true.
Proof.
  intros (Hin & Hq & Hh & _ & _ & _ & _ & _ & Hb & Hm & Hhoras & Htar) Ht.
  destruct (getitem_FLUIDOS _ Hin) as (p & Hp & Hrho & _).
  assert (Hb' : 0 < IZR (rend_bomba e) / 100).
  { assert (10 <= IZR (rend_bomba e)) by (apply IZR_le; lia). lra. }
  assert (Hm' : 0 < IZR (rend_motor e) / 100).
  { assert (50 <= IZR (rend_motor e)) by (apply IZR_le; lia). lra. }
  unfold script. rewrite Ht.
  rewrite (analise_energetica_finita _ (h_man_informada e) _ _ _ _ _ p Hp
             Hb' Hm'), bind_Ok.
  set (kW := vazao e / 3600 * rho p * 9.81 * h_man_informada e
             / (IZR (rend_bomba e) / 100) / (IZR (rend_motor e) / 100) / 1000).
  assert (HkW : 0 < kW).
  { unfold kW.
    assert (H1 : 0 < vazao e / 3600 * rho p)
      by (apply Rmult_lt_0_compat; lra).
    assert (H0 : 0 < vazao e / 3600 * rho p * 9.81 * h_man_informada e)
      by (apply Rmult_lt_0_compat; lra).
    apply Rdiv_lt_0_compat; [| lra].
    apply Rdiv_lt_0_compat; [| exact Hm'].
    apply Rdiv_lt_0_compat; [exact H0 | exact Hb']. }
  eexists. split; [reflexivity |].
  assert (Hd : 0 < kW * horas_por_dia e) by nra.
  assert (H30 : 0 < kW * horas_por_dia e * 30) by nra.
  assert (Hm30 : 0 < kW * horas_por_dia e * 30 * tarifa_energia e) by nra.
  assert (H365 : 0 < kW * horas_por_dia e * 365 * tarifa_energia e) by nra.
  cbn [potencia_eletrica_kW consumo_mensal_kWh custo_mensal custo_anual].
  unfold fgtb.
  repeat split;
    match goal with
    | |- context [Rgt_dec ?a 0] =>
        destruct (Rgt_dec a 0) as [_ | N]; [reflexivity | exfalso; lra]
    end.
Qed.

Lemma script_informar_manualmente_witness :
  exists en,
    script (mk_entradas agua 50 InformarManualmente 30 0 100 100 0.15 5 70 90
              8 0.75)
    = Ok (mk_estado_final (Fin 30) None en None []) /\
    fgtb (potencia_eletrica_kW en) (Fin 0) = true /\
    fgtb (consumo_mensal_kWh en) (Fin 0) = true /\
    fgtb (custo_mensal en) (Fin 0) = true /\
    fgtb (custo_anual en) (Fin 0) = true.
Proof.
  apply (script_informar_manualmente
           (mk_entradas agua 50 InformarManualmente 30 0 100 100 0.15 5 70 90
              8 0.75)).
  - unfold entradas_validas. cbn.
    repeat split; try lra; try lia. left. reflexivity.
  - reflexivity.
Defined.
